(** * EDF preprocessors of [scripts/preprocessors.py]

    A shallow embedding of the three entry points of the script,
    [standard] (trim and downsample), [spindle] (channel selection) and
    [batch] (run a preprocessor over a directory), together with the
    properties their design document states about them.

    Conventions of the embedding:
    - Python [int]s are [Z]; Python and numpy floats are exact rationals
      [Q] (rounding error of IEEE arithmetic is not modelled);
    - the EDF header is the dictionary the code indexes, a [gmap] from
      field names to values;
    - the file system, the open reader handles and the jobs handed to the
      worker pool form an explicit [World], threaded through a state and
      exception monad in which the state survives a raised exception;
    - the collaborators that are not part of the script (the resampler,
      the EDF writer's acceptance of a write, the number of cores) are
      the fields of the class [Externals]. *)

From Stdlib Require Import ZArith QArith Qround Lia String Ascii Sorted.
From stdpp Require Import gmap strings list fin_maps.

Open Scope Z_scope.

(** ** Paths *)

(** A [pathlib.Path] is the sequence of its components. *)
Definition Path : Type := list string.

(** A value passed where the signature says [Union[str, Path]]. *)
Inductive PathLike :=
| PStr (s : string)
| PPath (p : Path).

Fixpoint split_on (c : ascii) (acc : string) (s : string) : list string :=
  match s with
  | EmptyString => [String.rev acc]
  | String a s' =>
      if Ascii.eqb a c then String.rev acc :: split_on c EmptyString s'
      else split_on c (String a acc) s'
  end.

Definition nonempty (s : string) : bool :=
  match s with EmptyString => false | _ => true end.

(** [Path(s)] for a string: the components between slashes, a leading
    slash kept as the root component, empty components dropped. *)
Definition Path_of_string (s : string) : Path :=
  let comps := List.filter nonempty (split_on "/"%char EmptyString s) in
  match s with
  | String "/"%char _ => "/"%string :: comps
  | _ => comps
  end.

(** [Path(x)] *)
Definition mkPath (x : PathLike) : Path :=
  match x with
  | PStr s => Path_of_string s
  | PPath p => p
  end.

Definition joinpath (p : Path) (name : string) : Path := p ++ [name].

Definition parent (p : Path) : Path := removelast p.

Definition name (p : Path) : string := List.last p EmptyString.

(** [s.rfind(c)] *)
Fixpoint rfind (c : ascii) (s : string) : option nat :=
  match s with
  | EmptyString => None
  | String a s' =>
      match rfind c s' with
      | Some i => Some (S i)
      | None => if Ascii.eqb a c then Some O else None
      end
  end.

(** Index of the dot that starts the suffix, as pathlib computes it:
    [i = name.rfind('.')] counts when [0 < i < len(name) - 1]. *)
Definition suffix_index (nm : string) : option nat :=
  match rfind "."%char nm with
  | Some i =>
      if ((0 <? i)%nat && (S i <? String.length nm)%nat)%bool then Some i
      else None
  | None => None
  end.

Definition path_suffix (p : Path) : string :=
  let nm := name p in
  match suffix_index nm with
  | Some i => String.substring i (String.length nm - i) nm
  | None => EmptyString
  end.

Definition path_stem (p : Path) : string :=
  let nm := name p in
  match suffix_index nm with
  | Some i => String.substring 0 i nm
  | None => nm
  end.

(** ** Exceptions *)

Inductive Message :=
| BelowTrim (stem : string) (hrs : Q) (trim_to : list Q)
    (* f'{stem} is {hrs} hrs, a value below all trim_to {trim_to}' *)
| Text (s : string).

Inductive Exception :=
| ValueError (msg : Message)
| AttributeError (attr : string)
| KeyError (key : string)
| TypeError (what : string)
| IndexError
| ZeroDivisionError
| FileExistsError (p : Path)
| FileNotFoundError (p : Path)
| IsADirectoryError (p : Path)
| NotADirectoryError (p : Path)
| ExternalError (what : string).

Definition result (A : Type) : Type := Exception + A.

(** [x.stem] and [x.suffix]: a [str] has neither attribute. *)
Definition stem (x : PathLike) : result string :=
  match x with
  | PStr _ => inl (AttributeError "stem")
  | PPath p => inr (path_stem p)
  end.

Definition suffix (x : PathLike) : result string :=
  match x with
  | PStr _ => inl (AttributeError "suffix")
  | PPath p => inr (path_suffix p)
  end.

(** ** Numbers *)

Definition Qlt_bool (x y : Q) : bool := negb (Qle_bool y x).

(** [int(x)] on a float: truncation toward zero. *)
Definition Qtrunc (x : Q) : Z :=
  if Qle_bool 0 x then Qfloor x else Qceiling x.

(** [np.searchsorted(a, key, side='right')]: numpy's binary search.
    [fuel] bounds the number of halvings. *)
Fixpoint binsearch_right (fuel : nat) (a : list Q) (key : Q) (lo hi : nat) : nat :=
  match fuel with
  | O => lo
  | S fuel' =>
      if (lo <? hi)%nat then
        let mid := (lo + (hi - lo) / 2)%nat in
        match a !! mid with
        | Some x =>
            if Qlt_bool key x then binsearch_right fuel' a key lo mid
            else binsearch_right fuel' a key (S mid) hi
        | None => lo
        end
      else lo
  end.

Definition searchsorted_right (a : list Q) (key : Q) : nat :=
  binsearch_right (length a) a key 0 (length a).

(** ** The trim plan of [standard] (lines 88-97) *)

(** [np.array(trim_to) * 3600 * fs] *)
Definition trim_samples (trim_to : list Q) (fs : Q) : list Q :=
  List.map (fun t => t * 3600 * fs)%Q trim_to.

(** [int(np.ceil(stop / fs) * fs)]; with [fs = 0] numpy yields NaN and
    [int] raises. *)
Definition round_stop (stop fs : Q) : result Z :=
  if Qeq_bool fs 0 then inl (ValueError (Text "cannot convert float NaN to integer"))
  else inr (Qtrunc (inject_Z (Qceiling (stop / fs)) * fs)%Q).

(** Lines 89-97, with [n = reader.shape[axis]]. *)
Definition trim_stop (path : PathLike) (fs : Q) (trim_to : list Q) (n : Z) : result Z :=
  let samples := trim_samples trim_to fs in
  let idx := Z.of_nat (searchsorted_right samples (inject_Z n)) - 1 in
  if idx <? 0 then
    if Qeq_bool (3600 * fs) 0 then inl ZeroDivisionError
    else
      let hrs := (inject_Z n / (3600 * fs))%Q in
      match stem path with
      | inl e => inl e
      | inr s => inl (ValueError (BelowTrim s hrs trim_to))
      end
  else
    match samples !! Z.to_nat idx with
    | Some stop => round_stop stop fs
    | None => inl IndexError
    end.

(** ** Values, headers and arrays *)

(** What an EDF header entry or a keyword argument holds. *)
Inductive Value :=
| VInt (z : Z)
| VFloat (q : Q)
| VStr (s : string)
| VBool (b : bool)
| VPath (p : Path)
| VInts (l : list Z)
| VFloats (l : list Q)
| VStrs (l : list string).

(** The header dictionary ([header['num_records']], ...). *)
Abbreviation Header := (gmap string Value).

(** Keyword arguments ([**kwargs]). *)
Abbreviation Kwargs := (gmap string Value).

(** [l[i]] with Python's negative indices. *)
Definition py_get {A} (l : list A) (i : Z) : result A :=
  let len := Z.of_nat (length l) in
  let j := if i <? 0 then len + i else i in
  if (0 <=? j) && (j <? len) then
    match l !! Z.to_nat j with
    | Some x => inr x
    | None => inl IndexError
    end
  else inl IndexError.

(** [l[i] = x] on a copy, same indexing. *)
Definition py_set {A} (l : list A) (i : Z) (x : A) : list A :=
  let len := Z.of_nat (length l) in
  let j := if i <? 0 then len + i else i in
  if (0 <=? j) && (j <? len) then <[Z.to_nat j := x]> l else l.

Definition digit_of (a : ascii) : option Z :=
  let n := Z.of_nat (nat_of_ascii a) in
  if (48 <=? n) && (n <=? 57) then Some (n - 48) else None.

Fixpoint digits_value (acc : Z) (s : string) : option Z :=
  match s with
  | EmptyString => Some acc
  | String a s' =>
      match digit_of a with
      | Some d => digits_value (10 * acc + d) s'
      | None => None
      end
  end.

(** [int(s)] for a string: an optional sign and decimal digits. *)
Definition int_of_string (s : string) : result Z :=
  let bad := inl (ValueError (Text "invalid literal for int()")) in
  let unsigned (t : string) : option Z :=
    match t with EmptyString => None | _ => digits_value 0 t end in
  match s with
  | String "-"%char t =>
      match unsigned t with Some z => inr (- z) | None => bad end
  | String "+"%char t =>
      match unsigned t with Some z => inr z | None => bad end
  | _ => match unsigned s with Some z => inr z | None => bad end
  end.

Fixpoint mapR {A B} (f : A -> result B) (l : list A) : result (list B) :=
  match l with
  | [] => inr []
  | x :: l' =>
      match f x with
      | inl e => inl e
      | inr y =>
          match mapR f l' with
          | inl e => inl e
          | inr ys => inr (y :: ys)
          end
      end
  end.

(** [[int(m) for m in v]] *)
Definition int_all (v : Value) : result Value :=
  match v with
  | VInts l => inr (VInts l)
  | VFloats l => inr (VInts (List.map Qtrunc l))
  | VStrs l =>
      match mapR int_of_string l with
      | inl e => inl e
      | inr zs => inr (VInts zs)
      end
  | VStr s =>
      match mapR (fun a => int_of_string (String a EmptyString))
                 (list_ascii_of_string s) with
      | inl e => inl e
      | inr zs => inr (VInts zs)
      end
  | _ => inl (TypeError "object is not iterable")
  end.

(** [[x // m for x in v]]: Python's floor division, which on integers is
    [Z.div]. *)
Definition floordiv_all (v : Value) (m : Z) : result Value :=
  match v with
  | VInts [] => inr (VInts [])
  | VInts l =>
      if m =? 0 then inl ZeroDivisionError
      else inr (VInts (List.map (fun x => x / m) l))
  | VFloats [] => inr (VFloats [])
  | VFloats l =>
      if m =? 0 then inl ZeroDivisionError
      else inr (VFloats (List.map (fun x => inject_Z (Qfloor (x / inject_Z m))) l))
  | VStrs [] => inr (VStrs [])
  | VStr EmptyString => inr (VStrs [])
  | VStrs _ | VStr _ => inl (TypeError "unsupported operand type(s) for //")
  | _ => inl (TypeError "object is not iterable")
  end.

(** Where the samples of an array come from. *)
Inductive Samples :=
| Recorded (src : Path)
    (* every sample of the recording at [src] *)
| Downsampled (src : Path) (start stop : Z) (chunksize : Q) (axis : Z)
    (m : Z) (fs : Q).
    (* samples [start, stop) of [src] along [axis], decimated by [m] *)

Record ndarray := { content : Samples; shape : list Z }.

(** What is at a path of the file system. *)
Inductive File :=
| Edf (header : Header) (data : ndarray) (channels : list Z)
| EmptyFile.
    (* opened for writing, nothing written *)

(** An open [edf.Reader]. *)
Record Reader := {
  reader_path : Path;
  reader_header : Header;
  reader_data : ndarray;
  reader_channels : list Z
}.

Definition reader_shape (r : Reader) : list Z := shape (reader_data r).

(** ** The world and the monad *)

Record World := {
  dirs : gset Path;            (* existing directories *)
  files : gmap Path File;      (* existing files *)
  readers : list Path;         (* readers opened and not yet closed *)
  jobs : list (Path * Kwargs); (* ghost: jobs run by the pool, oldest first *)
  pools : list Z               (* ghost: the sizes [Pool] was called with *)
}.

Definition M (A : Type) : Type := World -> result A * World.

Definition ret {A} (x : A) : M A := fun w => (inr x, w).

Definition raise {A} (e : Exception) : M A := fun w => (inl e, w).

Definition bind {A B} (c : M A) (k : A -> M B) : M B :=
  fun w =>
    match c w with
    | (inr x, w') => k x w'
    | (inl e, w') => (inl e, w')
    end.

Definition lift {A} (r : result A) : M A :=
  match r with
  | inl e => raise e
  | inr x => ret x
  end.

Declare Scope py_scope.
Delimit Scope py_scope with py.
Notation "x <- c ;; k" := (bind c (fun x => k))
  (at level 100, c at next level, right associativity) : py_scope.
Notation "c ;;; k" := (bind c (fun _ => k))
  (at level 100, right associativity) : py_scope.
Open Scope py_scope.

(** The collaborators outside of the script. *)
Class Externals := {
  (* number of cores of the machine *)
  cpu_count : Z;
  (* shape of [resampling.downsample(pro, m, fs, chunksize, axis).to_array()]
     from the shape of what [pro] produces *)
  downsample_shape : list Z -> Z -> Q -> Q -> Z -> result (list Z);
  (* [edf.Writer.write(header, data, channels, verbose)]: the exception it
     raises, if any *)
  writer_write : Header -> ndarray -> list Z -> option Exception
}.

(** ** Readers, writers and directories *)

Definition set_readers (w : World) (rs : list Path) : World :=
  {| dirs := dirs w; files := files w; readers := rs; jobs := jobs w;
     pools := pools w |}.

Definition set_files (w : World) (fs : gmap Path File) : World :=
  {| dirs := dirs w; files := fs; readers := readers w; jobs := jobs w;
     pools := pools w |}.

Definition set_dirs (w : World) (ds : gset Path) : World :=
  {| dirs := ds; files := files w; readers := readers w; jobs := jobs w;
     pools := pools w |}.

Definition set_jobs (w : World) (js : list (Path * Kwargs)) : World :=
  {| dirs := dirs w; files := files w; readers := readers w; jobs := js;
     pools := pools w |}.

Definition set_pools (w : World) (ps : list Z) : World :=
  {| dirs := dirs w; files := files w; readers := readers w; jobs := jobs w;
     pools := ps |}.

(** [edf.Reader(fp)] *)
Definition open_reader (fp : Path) : M Reader := fun w =>
  match files w !! fp with
  | Some (Edf h d ch) =>
      (inr {| reader_path := fp; reader_header := h;
              reader_data := d; reader_channels := ch |},
       set_readers w (fp :: readers w))
  | Some EmptyFile => (inl (ExternalError "not an EDF file"), w)
  | None =>
      if decide (fp ∈ dirs w) then (inl (IsADirectoryError fp), w)
      else (inl (FileNotFoundError fp), w)
  end.

Fixpoint remove_first (p : Path) (l : list Path) : list Path :=
  match l with
  | [] => []
  | q :: l' => if decide (p = q) then l' else q :: remove_first p l'
  end.

(** [reader.close()] *)
Definition close_reader (r : Reader) : M unit := fun w =>
  (inr tt, set_readers w (remove_first (reader_path r) (readers w))).

(** [reader.read(0)]: every sample from the first on. *)
Definition reader_read (r : Reader) : ndarray := reader_data r.

(** [target.mkdir()] *)
Definition mkdir (target : Path) : M unit := fun w =>
  if decide (target ∈ dirs w ∨ is_Some (files w !! target)) then
    (inl (FileExistsError target), w)
  else if decide (parent target ∈ dirs w) then
    (inr tt, set_dirs w ({[target]} ∪ dirs w))
  else if decide (is_Some (files w !! parent target)) then
    (inl (NotADirectoryError target), w)
  else (inl (FileNotFoundError target), w).

Definition ends_with (suf s : string) : bool :=
  let n := String.length suf in
  let k := String.length s in
  ((n <=? k)%nat && String.eqb (String.substring (k - n) n s) suf)%bool.

(** The entries directly inside a directory whose name ends in [edf]. *)
Definition edf_paths (dir : Path) (w : World) : list Path :=
  List.filter
    (fun p => bool_decide (p ≠ [] ∧ parent p = dir) && ends_with "edf" (name p))
    (elements (dom (files w) ∪ dirs w)).

(** [list(Path(dirpath).glob('*edf'))] *)
Definition glob_edf (dir : Path) : M (list Path) := fun w =>
  (inr (edf_paths dir w), w).

Definition getattr (h : Header) (k : string) : result Value :=
  match h !! k with
  | Some v => inr v
  | None => inl (AttributeError k)
  end.

Definition getitem (h : Header) (k : string) : result Value :=
  match h !! k with
  | Some v => inr v
  | None => inl (KeyError k)
  end.

(** Modelled from the spec: [masks.between_pro(reader, start, stop,
    chunksize, axis)], a function of the package that is not part of the
    script: "a bounded lazy sequence of signal chunks limited to
    [0, stop_sample) along the time axis".  Its shape is the reader's with
    the entry at [axis] cut down to the samples of [start, stop). *)
Definition between_pro_shape (shp : list Z) (start stop axis : Z) : list Z :=
  match py_get shp axis with
  | inr n => py_set shp axis (Z.max 0 (Z.min stop n - start))
  | inl _ => shp
  end.

(** [int(length / (fs / m))] of line 110. *)
Definition num_records_of (length : Z) (fs : Q) (m : Z) : result Z :=
  if m =? 0 then inl ZeroDivisionError
  else
    let rate := (fs / inject_Z m)%Q in
    if Qeq_bool rate 0 then inl ZeroDivisionError
    else inr (Qtrunc (inject_Z length / rate)%Q).

Section Preprocessors.
Context {ext : Externals}.

(** [with edf.Writer(filepath) as writer: writer.write(header, data,
    channels, verbose)]: the file is opened (created or truncated) before
    the write, and closed on both exits. *)
Definition write_edf (filepath : Path) (header : Header) (data : ndarray)
    (channels : list Z) : M unit := fun w =>
  if decide (filepath ∈ dirs w) then (inl (IsADirectoryError filepath), w)
  else if decide (parent filepath ∈ dirs w) then
    match writer_write header data channels with
    | None =>
        (inr tt, set_files w (<[filepath := Edf header data channels]> (files w)))
    | Some e => (inl e, set_files w (<[filepath := EmptyFile]> (files w)))
    end
  else if decide (is_Some (files w !! parent filepath)) then
    (inl (NotADirectoryError filepath), w)
  else (inl (FileNotFoundError filepath), w).

(** Lines 100-103: the producer, the resampler and [to_array]. *)
Definition downsampled (reader : Reader) (stop : Z) (chunksize : Q) (axis : Z)
    (m : Z) (fs : Q) : result ndarray :=
  let pro := between_pro_shape (reader_shape reader) 0 stop axis in
  match downsample_shape pro m fs chunksize axis with
  | inl e => inl e
  | inr shp =>
      inr {| content := Downsampled (reader_path reader) 0 stop chunksize axis m fs;
             shape := shp |}
  end.

Definition standard (path savedir : PathLike) (fs : Q) (downsample : Z)
    (trim_to : list Q) (chunksize : Q) (axis : Z) (verbose : bool) : M unit :=
  let fp := mkPath path in
  reader <- open_reader fp ;;
  n <- lift (py_get (reader_shape reader) axis) ;;
  stop <- lift (trim_stop path fs trim_to n) ;;
  processed <- lift (downsampled reader stop chunksize axis downsample fs) ;;
  let header := reader_header reader in
  let m := downsample in
  spr <- lift (getattr header "samples_per_record") ;;
  spr' <- lift (floordiv_all spr m) ;;
  let header := <["samples_per_record" := spr']> header in
  len <- lift (py_get (shape processed) axis) ;;
  nrec <- lift (num_records_of len fs m) ;;
  let header := <["num_records" := VInt nrec]> header in
  let header := <["reserved_0" := VStr ""]> header in
  dmin <- lift (getitem header "digital_min") ;;
  dmin' <- lift (int_all dmin) ;;
  let header := <["digital_min" := dmin']> header in
  dmax <- lift (getitem header "digital_max") ;;
  dmax' <- lift (int_all dmax) ;;
  let header := <["digital_max" := dmax']> header in
  st <- lift (stem path) ;;
  sf <- lift (suffix path) ;;
  let fname := (st ++ "_PREPROCESSED" ++ sf)%string in
  let filepath := joinpath (mkPath savedir) fname in
  (write_edf filepath header processed (reader_channels reader) ;;;
   close_reader reader).

Definition spindle (path savedir : PathLike) (channels : list Z)
    (verbose : bool) : M unit :=
  let fp := mkPath path in
  reader <- open_reader fp ;;
  let data := reader_read reader in
  let header := reader_header reader in
  dmin <- lift (getitem header "digital_min") ;;
  dmin' <- lift (int_all dmin) ;;
  let header := <["digital_min" := dmin']> header in
  dmax <- lift (getitem header "digital_max") ;;
  dmax' <- lift (int_all dmax) ;;
  let header := <["digital_max" := dmax']> header in
  st <- lift (stem path) ;;
  sf <- lift (suffix path) ;;
  let fname := (st ++ "_SPINDLE" ++ sf)%string in
  let filepath := joinpath (mkPath savedir) fname in
  (write_edf filepath header data channels ;;;
   close_reader reader).

End Preprocessors.

(** ** Calls with keyword arguments *)

(** A preprocessor as [batch] sees it: its [__name__] and its call with
    one positional path and keyword arguments. *)
Record Preprocessor := {
  pp_name : string;
  pp_call : PathLike -> Kwargs -> M unit
}.

Definition kw_pathlike (v : Value) : result PathLike :=
  match v with
  | VPath p => inr (PPath p)
  | VStr s => inr (PStr s)
  | _ => inl (TypeError "expected str or Path")
  end.

Definition kw_number (v : Value) : result Q :=
  match v with
  | VInt z => inr (inject_Z z)
  | VFloat q => inr q
  | _ => inl (TypeError "expected a number")
  end.

Definition kw_int (v : Value) : result Z :=
  match v with
  | VInt z => inr z
  | _ => inl (TypeError "expected an int")
  end.

Definition kw_numbers (v : Value) : result (list Q) :=
  match v with
  | VInts l => inr (List.map inject_Z l)
  | VFloats l => inr l
  | _ => inl (TypeError "expected a sequence of numbers")
  end.

Definition kw_ints (v : Value) : result (list Z) :=
  match v with
  | VInts l => inr l
  | _ => inl (TypeError "expected a sequence of ints")
  end.

Definition kw_bool (v : Value) : result bool :=
  match v with
  | VBool b => inr b
  | _ => inl (TypeError "expected a bool")
  end.

(** A required keyword argument. *)
Definition required {A} (kw : Kwargs) (k : string) (conv : Value -> result A) : result A :=
  match kw !! k with
  | Some v => conv v
  | None => inl (TypeError "missing a required argument")
  end.

(** A keyword argument with a default. *)
Definition optional {A} (kw : Kwargs) (k : string) (conv : Value -> result A)
    (dflt : A) : result A :=
  match kw !! k with
  | Some v => conv v
  | None => inr dflt
  end.

(** Keyword arguments outside of the signature are a [TypeError]. *)
Definition check_keywords (kw : Kwargs) (allowed : list string) : result unit :=
  if forallb (fun k => bool_decide (k ∈ allowed)) (elements (dom kw)) then inr tt
  else inl (TypeError "got an unexpected keyword argument").

Section Batch.
Context {ext : Externals}.

(** [standard(path, **kw)] with the defaults of its signature. *)
Definition call_standard (path : PathLike) (kw : Kwargs) : M unit :=
  _ <- lift (check_keywords kw
         ["savedir"; "fs"; "downsample"; "trim_to"; "chunksize"; "axis"; "verbose"]%string) ;;
  savedir <- lift (required kw "savedir" kw_pathlike) ;;
  fs <- lift (required kw "fs" kw_number) ;;
  downsample <- lift (required kw "downsample" kw_int) ;;
  trim_to <- lift (optional kw "trim_to" kw_numbers [48; 72]%Q) ;;
  chunksize <- lift (optional kw "chunksize" kw_number 3000000%Q) ;;
  axis <- lift (optional kw "axis" kw_int (-1)) ;;
  verbose <- lift (optional kw "verbose" kw_bool true) ;;
  standard path savedir fs downsample trim_to chunksize axis verbose.

(** [spindle(path, **kw)] *)
Definition call_spindle (path : PathLike) (kw : Kwargs) : M unit :=
  _ <- lift (check_keywords kw ["savedir"; "channels"; "verbose"]%string) ;;
  savedir <- lift (required kw "savedir" kw_pathlike) ;;
  channels <- lift (required kw "channels" kw_ints) ;;
  verbose <- lift (optional kw "verbose" kw_bool true) ;;
  spindle path savedir channels verbose.

Definition standard_pp : Preprocessor :=
  {| pp_name := "standard"; pp_call := call_standard |}.

Definition spindle_pp : Preprocessor :=
  {| pp_name := "spindle"; pp_call := call_spindle |}.

(** ** The batch *)

(** Modelled from the spec: [concurrency.set_cores(ncores, maximum)], a
    function of the package that is not part of the script: "Computes
    worker count: min(requested_or_default, available_cores, file_count)
    ...; if worker_count is unset, default to available cores". *)
Definition set_cores (ncores : option Z) (maximum : Z) : Z :=
  Z.min (Z.min (default cpu_count ncores) cpu_count) maximum.

(** [Pool(workers)]: multiprocessing refuses fewer than one process. *)
Definition Pool (workers : Z) : M unit := fun w =>
  let w' := set_pools w (pools w ++ [workers]) in
  if workers <? 1 then
    (inl (ValueError (Text "Number of processes must be at least 1")), w')
  else (inr tt, w').

(** A worker takes a job. *)
Definition start_job (p : Path) (kw : Kwargs) : M unit := fun w =>
  (inr tt, set_jobs w (jobs w ++ [(p, kw)])).

(** [pool.map(func, paths)], one job after the other; the first exception
    ends the batch. *)
Fixpoint pool_map (func : Path -> M unit) (paths : list Path) : M unit :=
  match paths with
  | [] => ret tt
  | p :: ps => func p ;;; pool_map func ps
  end.

(** [if not target]: [None] and the empty string are false. *)
Definition resolve_target (preprocessor : Preprocessor) (dirpath : PathLike)
    (target : option PathLike) : Path :=
  match target with
  | None | Some (PStr EmptyString) =>
      joinpath (mkPath dirpath) (pp_name preprocessor)
  | Some t => mkPath t
  end.

(** [partial(preprocessor, savedir=target, **kwargs)] after
    [kwargs.pop('savedir', None)]: the keyword arguments of every call. *)
Definition job_kwargs (target : Path) (kwargs : Kwargs) : Kwargs :=
  <["savedir" := VPath target]> (delete "savedir" kwargs).

Definition batch (preprocessor : Preprocessor) (dirpath : PathLike)
    (target : option PathLike) (ncores : option Z) (verbose : bool)
    (kwargs : Kwargs) : M unit :=
  let target := resolve_target preprocessor dirpath target in
  mkdir target ;;;
  paths <- glob_edf (mkPath dirpath) ;;
  let workers := set_cores ncores (Z.of_nat (length paths)) in
  let func := fun p =>
    (start_job p (job_kwargs target kwargs) ;;;
     pp_call preprocessor (PPath p) (job_kwargs target kwargs)) in
  (Pool workers ;;; pool_map func paths).

End Batch.

(** ** A small machine to run the code on *)

Definition all_in_range (n : Z) (channels : list Z) : bool :=
  forallb (fun c => (- n <=? c) && (c <? n)) channels.

(** Eight cores, a resampler that keeps one sample in [m], and a writer
    that indexes the header lists with the requested channels. *)
Definition demo_ext : Externals := {|
  cpu_count := 8;
  downsample_shape := fun shp m fs chunksize axis =>
    if m <=? 0 then inl (ValueError (Text "M must be a positive integer"))
    else
      match py_get shp axis with
      | inr n => inr (py_set shp axis ((n + m - 1) / m))
      | inl e => inl e
      end;
  writer_write := fun header data channels =>
    match py_get (shape data) 0 with
    | inr n => if all_in_range n channels then None else Some IndexError
    | inl e => Some e
    end
|}.

Definition demo_header (spr : Z) (duration : Q) : Header :=
  list_to_map [
    ("version", VStr "0");
    ("reserved_0", VStr "EDF+C");
    ("num_records", VInt 10);
    ("record_duration", VFloat duration);
    ("num_signals", VInt 2);
    ("names", VStrs ["EEG 1"; "EEG 2"]);
    ("digital_min", VFloats [-32768; -32768]%Q);
    ("digital_max", VFloats [32767; 32767]%Q);
    ("samples_per_record", VInts [spr; spr])
  ]%string.

Definition rec01 : Path := ["data"; "rec01.edf"]%string.

(** A world with one recording, [data/rec01.edf], of two channels with [n]
    samples each, and an empty directory [out]. *)
Definition world_with (h : Header) (n : Z) : World := {|
  dirs := {[ []; ["data"]%string; ["out"]%string ]};
  files := {[ rec01 := Edf h {| content := Recorded rec01; shape := [2; n] |} [0; 1] ]};
  readers := [];
  jobs := [];
  pools := []
|}.

(** Records of one second at [fs] Hz. *)
Definition demo_world (fs n : Z) : World := world_with (demo_header fs 1) n.

Definition out_dir : PathLike := PStr "out".

(** 66 and 40 hours at 5000 Hz. *)
Definition long_recording : World := demo_world 5000 (66 * 3600 * 5000).
Definition short_recording : World := demo_world 5000 (40 * 3600 * 5000).


(** [standard(rec01, 'out', fs=5000, downsample=m)] *)
Definition run_standard (m : Z) (w : World) : result unit * World :=
  @standard demo_ext (PPath rec01) out_dir 5000 m [48; 72]%Q 3000000 (-1) true w.


(** [spindle(rec01, 'out', channels)] on five samples per channel. *)
Definition run_spindle (channels : list Z) : result unit * World :=
  @spindle demo_ext (PPath rec01) out_dir channels true (demo_world 5000 5).

(** ** What the runs are checked against *)


Section Outputs.
Context {ext : Externals}.

(** The header [standard] hands to the writer (lines 106-115). *)
Definition standard_header (h : Header) (spr' : Value) (nrec : Z)
    (dmin' dmax' : Value) : Header :=
  <["digital_max" := dmax']>
    (<["digital_min" := dmin']>
       (<["reserved_0" := VStr ""]>
          (<["num_records" := VInt nrec]>
             (<["samples_per_record" := spr']> h)))).

(** The header [spindle] hands to the writer (lines 155-158). *)
Definition spindle_header (h : Header) (dmin' dmax' : Value) : Header :=
  <["digital_max" := dmax']> (<["digital_min" := dmin']> h).

(** Where a preprocessor writes: [Path(savedir) / (stem + tag + suffix)]. *)
Definition output_path (savedir : PathLike) (p : Path) (tag : string) : Path :=
  joinpath (mkPath savedir) (path_stem p ++ tag ++ path_suffix p)%string.

(** What a finished run of [standard] went through. *)
Inductive StandardRun (p : Path) (savedir : PathLike) (fs : Q) (m : Z)
    (trim_to : list Q) (chunksize : Q) (axis : Z) (w w' : World) : Prop :=
| standard_run (h : Header) (d : ndarray) (ch : list Z) (n stop : Z)
    (processed : ndarray) (spr spr' : Value) (len nrec : Z)
    (dmin dmin' dmax dmax' : Value)
    (sr_source : files w !! p = Some (Edf h d ch))
    (sr_shape : py_get (shape d) axis = inr n)
    (sr_trim : trim_stop (PPath p) fs trim_to n = inr stop)
    (sr_down :
       downsampled {| reader_path := p; reader_header := h;
                      reader_data := d; reader_channels := ch |}
                   stop chunksize axis m fs = inr processed)
    (sr_spr : h !! "samples_per_record" = Some spr)
    (sr_div : floordiv_all spr m = inr spr')
    (sr_len : py_get (shape processed) axis = inr len)
    (sr_nrec : num_records_of len fs m = inr nrec)
    (sr_dmin : h !! "digital_min" = Some dmin)
    (sr_dmin_int : int_all dmin = inr dmin')
    (sr_dmax : h !! "digital_max" = Some dmax)
    (sr_dmax_int : int_all dmax = inr dmax')
    (sr_accept :
       writer_write (standard_header h spr' nrec dmin' dmax') processed ch = None)
    (sr_not_dir : output_path savedir p "_PREPROCESSED" ∉ dirs w)
    (sr_parent : parent (output_path savedir p "_PREPROCESSED") ∈ dirs w)
    (sr_files :
       files w' =
         <[output_path savedir p "_PREPROCESSED" :=
             Edf (standard_header h spr' nrec dmin' dmax') processed ch]> (files w))
    (sr_dirs : dirs w' = dirs w)
    (sr_readers : readers w' = readers w)
    (sr_jobs : jobs w' = jobs w).

End Outputs.

(** ** The shape of the two preprocessors *)

Definition bindR {A B} (r : result A) (k : A -> result B) : result B :=
  match r with
  | inl e => inl e
  | inr x => k x
  end.

Definition reader_of (fp : Path) (h : Header) (d : ndarray) (ch : list Z) : Reader :=
  {| reader_path := fp; reader_header := h; reader_data := d; reader_channels := ch |}.

Section Plans.
Context {ext : Externals}.

(** Everything [standard] computes between opening the reader and opening
    the writer (lines 88-119): the output path, the header and the data. *)
Definition standard_plan (path savedir : PathLike) (fs : Q) (m : Z)
    (trim_to : list Q) (chunksize : Q) (axis : Z) (reader : Reader)
    : result (Path * Header * ndarray) :=
  bindR (py_get (reader_shape reader) axis) (fun n =>
  bindR (trim_stop path fs trim_to n) (fun stop =>
  bindR (downsampled reader stop chunksize axis m fs) (fun processed =>
  bindR (getattr (reader_header reader) "samples_per_record") (fun spr =>
  bindR (floordiv_all spr m) (fun spr' =>
  bindR (py_get (shape processed) axis) (fun len =>
  bindR (num_records_of len fs m) (fun nrec =>
  bindR (getitem (reader_header reader) "digital_min") (fun dmin =>
  bindR (int_all dmin) (fun dmin' =>
  bindR (getitem (reader_header reader) "digital_max") (fun dmax =>
  bindR (int_all dmax) (fun dmax' =>
  bindR (stem path) (fun st =>
  bindR (suffix path) (fun sf =>
  inr (joinpath (mkPath savedir) (st ++ "_PREPROCESSED" ++ sf)%string,
       standard_header (reader_header reader) spr' nrec dmin' dmax',
       processed)))))))))))))).

(** The same for [spindle] (lines 152-162). *)
Definition spindle_plan (path savedir : PathLike) (reader : Reader)
    : result (Path * Header * ndarray) :=
  bindR (getitem (reader_header reader) "digital_min") (fun dmin =>
  bindR (int_all dmin) (fun dmin' =>
  bindR (getitem (reader_header reader) "digital_max") (fun dmax =>
  bindR (int_all dmax) (fun dmax' =>
  bindR (stem path) (fun st =>
  bindR (suffix path) (fun sf =>
  inr (joinpath (mkPath savedir) (st ++ "_SPINDLE" ++ sf)%string,
       spindle_header (reader_header reader) dmin' dmax',
       reader_read reader))))))).

(** Open the reader, plan, write, close: the shape of both preprocessors. *)
Definition open_plan_write_close (fp : Path)
    (plan : Reader -> result (Path * Header * ndarray))
    (channels : Reader -> list Z) : M unit := fun w =>
  match open_reader fp w with
  | (inl e, w1) => (inl e, w1)
  | (inr reader, w1) =>
      match plan reader with
      | inl e => (inl e, w1)
      | inr (filepath, header, data) =>
          match write_edf filepath header data (channels reader) w1 with
          | (inl e, w2) => (inl e, w2)
          | (inr _, w2) => close_reader reader w2
          end
      end
  end.

End Plans.

(** ** More runs *)


(** [standard('data/rec01.edf', 'out', fs=5000, downsample=20)]: the path
    given as a [str]. *)
Definition run_standard_str (w : World) : result unit * World :=
  @standard demo_ext (PStr "data/rec01.edf") out_dir 5000 20 [48; 72]%Q 3000000 (-1)
    true w.

(** [spindle('data/rec01.edf', 'out', [1, 0])] *)
Definition run_spindle_str : result unit * World :=
  @spindle demo_ext (PStr "data/rec01.edf") out_dir [1; 0] true (demo_world 5000 5).

(** ** Batches *)

(** [w'] differs from [w] in the open readers and in files directly inside
    [t] at most. *)
Definition writes_into (t : Path) (w w' : World) : Prop :=
  dirs w' = dirs w /\ jobs w' = jobs w /\ pools w' = pools w /\
  forall q : Path, parent q <> t -> files w' !! q = files w !! q.

(** What [batch] takes its [preprocessor] to be, "a callable that
    preprocesses a single EDF file": called with [savedir=t] it creates or
    changes files inside [t] only, and leaves the directories and the
    bookkeeping of the pool alone. *)
Definition Wellbehaved (pp : Preprocessor) : Prop :=
  forall (p : PathLike) (kw : Kwargs) (t : Path) (w : World),
    kw !! "savedir" = Some (VPath t) -> writes_into t w (pp_call pp p kw w).2.

Definition rec02 : Path := ["data"; "rec02.edf"]%string.

(** [data/rec01.edf] of 66 hours and [data/rec02.edf] of 50 hours. *)
Definition two_recordings : World :=
  set_files long_recording
    (<[rec02 := Edf (demo_header 5000 1)
                  {| content := Recorded rec02; shape := [2; 50 * 3600 * 5000] |} [0; 1]]>
       (files long_recording)).

(** The keyword arguments of the script's own call,
    [batch(standard, basepath, fs=5000, downsample=20)]. *)
Definition standard_kwargs : Kwargs :=
  list_to_map [("fs", VInt 5000); ("downsample", VInt 20)]%string.

(** [batch(standard, dirpath, target, ncores, **kwargs)] *)
Definition run_batch (dirpath : PathLike) (target : option PathLike)
    (ncores : option Z) (kwargs : Kwargs) (w : World) : result unit * World :=
  @batch demo_ext (@standard_pp demo_ext) dirpath target ncores true kwargs w.

Definition data_dir : PathLike := PStr "data".

(** The world after [batch(standard, 'data', fs=5000, downsample=20)]. *)
Definition already_preprocessed : World :=
  (run_batch data_dir None None standard_kwargs two_recordings).2.

(** ** The script run as a program (lines 218-222) *)


Section Main.
Context {ext : Externals}.


End Main.


(** * The trim plan *)
















(** The scenario of the design document: 66 hours at 5000 Hz with the
    candidates 48 and 72 are cut at 48 hours. *)
Example trim_66_hours :
  trim_stop (PPath rec01) 5000 [48; 72]%Q (66 * 3600 * 5000) = inr (48 * 3600 * 5000).
Proof. vm_compute. reflexivity. Qed.

Example trim_40_hours :
  trim_stop (PPath rec01) 5000 [48; 72]%Q (40 * 3600 * 5000) =
  inl (ValueError (BelowTrim "rec01"
         (inject_Z (40 * 3600 * 5000) / (3600 * 5000)) [48; 72]%Q)).
Proof. vm_compute. reflexivity. Qed.

(** * Running the monad *)

Lemma bind_inr {A B} (c : M A) (k : A -> M B) (w w' : World) (y : B) :
  bind c k w = (inr y, w') ->
  exists x w1, c w = (inr x, w1) /\ k x w1 = (inr y, w').
Proof.
  unfold bind. destruct (c w) as [[e|x] w1]; [discriminate|]. eauto.
Qed.

Lemma bind_inl {A B} (c : M A) (k : A -> M B) (w w' : World) (e : Exception) :
  bind c k w = (inl e, w') ->
  c w = (inl e, w') \/ exists x w1, c w = (inr x, w1) /\ k x w1 = (inl e, w').
Proof.
  unfold bind. destruct (c w) as [[e0|x] w1]; intros H; [left; injection H as -> ->; reflexivity|right; eauto].
Qed.

Lemma bind_step {A B} (c : M A) (k : A -> M B) (w w1 : World) (x : A) :
  c w = (inr x, w1) -> bind c k w = k x w1.
Proof. unfold bind. intros ->. reflexivity. Qed.

Lemma bind_fail {A B} (c : M A) (k : A -> M B) (w w1 : World) (e : Exception) :
  c w = (inl e, w1) -> bind c k w = (inl e, w1).
Proof. unfold bind. intros ->. reflexivity. Qed.

Lemma lift_inr {A} (r : result A) (w w' : World) (x : A) :
  lift r w = (inr x, w') -> r = inr x /\ w' = w.
Proof. destruct r; unfold lift, raise, ret; intros [= -> ->]; auto. Qed.

Lemma lift_inl {A} (r : result A) (w w' : World) (e : Exception) :
  lift r w = (inl e, w') -> r = inl e /\ w' = w.
Proof. destruct r; unfold lift, raise, ret; intros [= -> ->]; auto. Qed.

Lemma lift_run {A} (r : result A) (w : World) : lift r w = (r, w).
Proof. destruct r; reflexivity. Qed.

Lemma open_reader_inr (fp : Path) (w w' : World) (r : Reader) :
  open_reader fp w = (inr r, w') ->
  exists h d ch,
    files w !! fp = Some (Edf h d ch) /\
    r = {| reader_path := fp; reader_header := h;
           reader_data := d; reader_channels := ch |} /\
    w' = set_readers w (fp :: readers w).
Proof.
  unfold open_reader. destruct (files w !! fp) as [[h d ch|]|].
  - intros [= <- <-]. eauto 6.
  - discriminate.
  - destruct (decide _); discriminate.
Qed.

Lemma open_reader_inl (fp : Path) (w w' : World) (e : Exception) :
  open_reader fp w = (inl e, w') -> w' = w.
Proof.
  unfold open_reader. destruct (files w !! fp) as [[h d ch|]|].
  - discriminate.
  - congruence.
  - destruct (decide _); congruence.
Qed.

Lemma getitem_Some (h : Header) (k : string) (v : Value) :
  getitem h k = inr v <-> h !! k = Some v.
Proof. unfold getitem. destruct (h !! k); split; congruence. Qed.

Lemma getattr_Some (h : Header) (k : string) (v : Value) :
  getattr h k = inr v <-> h !! k = Some v.
Proof. unfold getattr. destruct (h !! k); split; congruence. Qed.

Lemma stem_inr (x : PathLike) (s : string) :
  stem x = inr s -> exists p, x = PPath p /\ s = path_stem p.
Proof. destruct x; simpl; [discriminate|]. intros [= <-]. eauto. Qed.

Section Runs.
Context {ext : Externals}.

Lemma write_edf_inr (out : Path) (h : Header) (d : ndarray) (ch : list Z)
    (w w' : World) (u : unit) :
  write_edf out h d ch w = (inr u, w') ->
  writer_write h d ch = None /\ (out ∉ dirs w) /\ (parent out ∈ dirs w) /\
  w' = set_files w (<[out := Edf h d ch]> (files w)).
Proof.
  unfold write_edf. destruct (decide (out ∈ dirs w)); [discriminate|].
  destruct (decide (parent out ∈ dirs w)); [|destruct (decide _); discriminate].
  destruct (writer_write h d ch); [discriminate|].
  intros [= <-]. auto.
Qed.

Lemma write_edf_inl (out : Path) (h : Header) (d : ndarray) (ch : list Z)
    (w w' : World) (e : Exception) :
  write_edf out h d ch w = (inl e, w') ->
  w' = w \/
  (writer_write h d ch = Some e /\ w' = set_files w (<[out := EmptyFile]> (files w))).
Proof.
  unfold write_edf. destruct (decide (out ∈ dirs w)); [intros [= _ <-]; auto|].
  destruct (decide (parent out ∈ dirs w));
    [|destruct (decide _); intros [= _ <-]; auto].
  destruct (writer_write h d ch); [|discriminate].
  intros [= <- <-]. auto.
Qed.

Lemma remove_first_head (p : Path) (l : list Path) : remove_first p (p :: l) = l.
Proof. simpl. destruct (decide (p = p)); congruence. Qed.

Lemma standard_inr (path savedir : PathLike) (fs : Q) (m : Z) (trim_to : list Q)
    (chunksize : Q) (axis : Z) (verbose : bool) (w w' : World) (u : unit) :
  standard path savedir fs m trim_to chunksize axis verbose w = (inr u, w') ->
  exists p, path = PPath p /\
    StandardRun p savedir fs m trim_to chunksize axis w w'.
Proof.
  unfold standard. intros H. destruct u.
  apply bind_inr in H as (reader & w1 & Hopen & H).
  apply open_reader_inr in Hopen as (h & d & ch & Hsrc & -> & ->).
  apply bind_inr in H as (n & ? & Hn & H). apply lift_inr in Hn as [Hn ->].
  apply bind_inr in H as (stop & ? & Hstop & H). apply lift_inr in Hstop as [Hstop ->].
  apply bind_inr in H as (processed & ? & Hpro & H). apply lift_inr in Hpro as [Hpro ->].
  apply bind_inr in H as (spr & ? & Hspr & H). apply lift_inr in Hspr as [Hspr ->].
  apply bind_inr in H as (spr' & ? & Hspr' & H). apply lift_inr in Hspr' as [Hspr' ->].
  apply bind_inr in H as (len & ? & Hlen & H). apply lift_inr in Hlen as [Hlen ->].
  apply bind_inr in H as (nrec & ? & Hnrec & H). apply lift_inr in Hnrec as [Hnrec ->].
  apply bind_inr in H as (dmin & ? & Hdmin & H). apply lift_inr in Hdmin as [Hdmin ->].
  apply bind_inr in H as (dmin' & ? & Hdmin' & H). apply lift_inr in Hdmin' as [Hdmin' ->].
  apply bind_inr in H as (dmax & ? & Hdmax & H). apply lift_inr in Hdmax as [Hdmax ->].
  apply bind_inr in H as (dmax' & ? & Hdmax' & H). apply lift_inr in Hdmax' as [Hdmax' ->].
  apply bind_inr in H as (st & ? & Hst & H). apply lift_inr in Hst as [Hst ->].
  apply bind_inr in H as (sf & ? & Hsf & H). apply lift_inr in Hsf as [Hsf ->].
  apply stem_inr in Hst as (p & -> & ->). simpl in Hsf. injection Hsf as <-.
  apply bind_inr in H as ([] & w2 & Hwrite & H).
  apply write_edf_inr in Hwrite as (Hacc & Hnd & Hpar & ->).
  unfold close_reader in H. injection H as <-.
  cbn [reader_path reader_header reader_data reader_channels reader_shape] in *.
  apply getattr_Some in Hspr. apply getitem_Some in Hdmin, Hdmax.
  rewrite !lookup_insert_ne in Hdmin by discriminate.
  rewrite !lookup_insert_ne in Hdmax by discriminate.
  exists p. split; [reflexivity|].
  cbn [dirs set_readers set_files mkPath] in Hnd, Hpar.
  econstructor; try eassumption; try reflexivity.
  cbn [readers set_readers set_files]. apply remove_first_head.
Qed.
End Runs.

(** * The header [standard] writes *)

Section StandardHeader.
Context {ext : Externals}.








End StandardHeader.





(** * The two preprocessors, unfolded *)

Section Unfolding.
Context {ext : Externals}.

Lemma getitem_insert_ne (h : Header) (k k' : string) (v : Value) :
  k <> k' -> getitem (<[k := v]> h) k' = getitem h k'.
Proof. intros H. unfold getitem. rewrite lookup_insert_ne by exact H. reflexivity. Qed.

Ltac next_step :=
  rewrite ?getitem_insert_ne by discriminate;
  match goal with
  | |- context [lift ?r _] => rewrite (lift_run r); destruct r; cbn [bindR]; try reflexivity
  end.

Lemma standard_unfold (path savedir : PathLike) (fs : Q) (m : Z) (trim_to : list Q)
    (chunksize : Q) (axis : Z) (verbose : bool) (w : World) :
  standard path savedir fs m trim_to chunksize axis verbose w =
  open_plan_write_close (mkPath path)
    (standard_plan path savedir fs m trim_to chunksize axis) reader_channels w.
Proof.
  unfold standard, open_plan_write_close, standard_plan, standard_header, bind.
  destruct (open_reader (mkPath path) w) as [[e|reader] w1]; [reflexivity|].
  do 13 next_step.
Qed.

Lemma spindle_unfold (path savedir : PathLike) (channels : list Z) (verbose : bool)
    (w : World) :
  spindle path savedir channels verbose w =
  open_plan_write_close (mkPath path) (spindle_plan path savedir)
    (fun _ => channels) w.
Proof.
  unfold spindle, open_plan_write_close, spindle_plan, spindle_header, bind.
  destruct (open_reader (mkPath path) w) as [[e|reader] w1]; [reflexivity|].
  do 6 next_step.
Qed.

End Unfolding.

Section Shape.
Context {ext : Externals}.

Lemma open_reader_Edf (fp : Path) (w : World) (h : Header) (d : ndarray) (ch : list Z) :
  files w !! fp = Some (Edf h d ch) ->
  open_reader fp w = (inr (reader_of fp h d ch), set_readers w (fp :: readers w)).
Proof. intros H. unfold open_reader. rewrite H. reflexivity. Qed.

(** A finished run: the source was read, the plan succeeded, the writer
    accepted, and the reader was closed. *)
Lemma open_plan_write_close_inr (fp : Path)
    (plan : Reader -> result (Path * Header * ndarray))
    (channels : Reader -> list Z) (w w' : World) (u : unit) :
  open_plan_write_close fp plan channels w = (inr u, w') ->
  exists h d ch out header data,
    files w !! fp = Some (Edf h d ch) /\
    plan (reader_of fp h d ch) = inr (out, header, data) /\
    writer_write header data (channels (reader_of fp h d ch)) = None /\
    (out ∉ dirs w) /\ (parent out ∈ dirs w) /\
    w' = set_files w (<[out := Edf header data (channels (reader_of fp h d ch))]> (files w)).
Proof.
  unfold open_plan_write_close. destruct u.
  destruct (open_reader fp w) as [[e|reader] w1] eqn:Hopen; [discriminate|].
  apply open_reader_inr in Hopen as (h & d & ch & Hsrc & -> & ->).
  fold (reader_of fp h d ch).
  destruct (plan _) as [e|[[out header] data]] eqn:Hplan; [discriminate|].
  destruct (write_edf _ _ _ _ _) as [[e|[]] w2] eqn:Hwrite; [discriminate|].
  apply write_edf_inr in Hwrite as (Hacc & Hnd & Hpar & ->).
  unfold close_reader. intros [= <-].
  exists h, d, ch, out, header, data. repeat split; try assumption.
  destruct (decide (fp = fp)); [|congruence]. destruct w. reflexivity.
Qed.

(** A failed run never closes a reader it opened, and has written at most
    an empty file. *)
Lemma open_plan_write_close_inl (fp : Path)
    (plan : Reader -> result (Path * Header * ndarray))
    (channels : Reader -> list Z) (w w' : World) (e : Exception) :
  open_plan_write_close fp plan channels w = (inl e, w') ->
  (w' = w /\ forall h d ch, files w !! fp <> Some (Edf h d ch)) \/
  exists h d ch,
    files w !! fp = Some (Edf h d ch) /\
    readers w' = fp :: readers w /\ dirs w' = dirs w /\ jobs w' = jobs w /\
    (files w' = files w \/
     exists out header data,
       plan (reader_of fp h d ch) = inr (out, header, data) /\
       writer_write header data (channels (reader_of fp h d ch)) = Some e /\
       files w' = <[out := EmptyFile]> (files w)).
Proof.
  unfold open_plan_write_close.
  destruct (open_reader fp w) as [[e0|reader] w1] eqn:Hopen.
  - intros [= <- <-]. left. split.
    + eapply open_reader_inl; exact Hopen.
    + intros h d ch Hsrc. rewrite (open_reader_Edf _ _ _ _ _ Hsrc) in Hopen. discriminate.
  - apply open_reader_inr in Hopen as (h & d & ch & Hsrc & -> & ->).
    fold (reader_of fp h d ch). intros H. right. exists h, d, ch.
    split; [exact Hsrc|].
    destruct (plan _) as [e0|[[out header] data]] eqn:Hplan.
    + injection H as <- <-. repeat split. left. reflexivity.
    + destruct (write_edf _ _ _ _ _) as [[e0|[]] w2] eqn:Hwrite.
      * injection H as <- <-. apply write_edf_inl in Hwrite as [->|[Hrej ->]].
        -- repeat split. left. reflexivity.
        -- repeat split. right. exists out, header, data. repeat split. exact Hrej.
      * unfold close_reader in H. discriminate.
Qed.

Lemma trim_stop_inr_any_path (x y : PathLike) (fs : Q) (trim_to : list Q) (n stop : Z) :
  trim_stop x fs trim_to n = inr stop -> trim_stop y fs trim_to n = inr stop.
Proof.
  unfold trim_stop. destruct (_ <? 0).
  - destruct (Qeq_bool _ 0); [discriminate|]. destruct (stem x); discriminate.
  - auto.
Qed.

Lemma trim_stop_str (s : string) (p : Path) (fs : Q) (trim_to trim_to' : list Q)
    (n : Z) (st : string) (hrs : Q) (u : result Z) :
  trim_stop (PPath p) fs trim_to n = u ->
  (forall stop, u = inr stop -> trim_stop (PStr s) fs trim_to n = inr stop) /\
  (u = inl (ValueError (BelowTrim st hrs trim_to')) ->
   trim_stop (PStr s) fs trim_to n = inl (AttributeError "stem")) /\
  (forall stop, trim_stop (PStr s) fs trim_to n = inr stop -> u = inr stop).
Proof.
  intros <-. split; [|split].
  - intros stop. apply trim_stop_inr_any_path.
  - unfold trim_stop. destruct (_ <? 0).
    + destruct (Qeq_bool _ 0); [discriminate|]. reflexivity.
    + destruct (_ !! _) as [x|]; [|discriminate].
      unfold round_stop. destruct (Qeq_bool fs 0); discriminate.
  - intros stop. apply trim_stop_inr_any_path.
Qed.

Lemma standard_plan_str_never (s : string) (savedir : PathLike) (fs : Q) (m : Z)
    (trim_to : list Q) (chunksize : Q) (axis : Z) (reader : Reader) x :
  standard_plan (PStr s) savedir fs m trim_to chunksize axis reader <> inr x.
Proof.
  unfold standard_plan.
  repeat match goal with
         | |- bindR ?r _ <> _ => destruct r; cbn [bindR stem]; [discriminate|]
         end.
  discriminate.
Qed.

Lemma standard_plan_str_after_success (s : string) (p : Path) (savedir : PathLike)
    (fs : Q) (m : Z) (trim_to : list Q) (chunksize : Q) (axis : Z) (reader : Reader) x :
  standard_plan (PPath p) savedir fs m trim_to chunksize axis reader = inr x ->
  standard_plan (PStr s) savedir fs m trim_to chunksize axis reader
    = inl (AttributeError "stem").
Proof.
  unfold standard_plan.
  destruct (py_get _ axis) as [|n]; cbn [bindR]; [discriminate|].
  destruct (trim_stop (PPath p) fs trim_to n) as [|stop] eqn:Ht; cbn [bindR]; [discriminate|].
  rewrite (trim_stop_inr_any_path _ (PStr s) _ _ _ _ Ht). cbn [bindR].
  repeat match goal with
         | |- bindR ?r _ = inr _ -> _ => destruct r; cbn [bindR]; [discriminate|]
         end.
  reflexivity.
Qed.

Lemma spindle_plan_str_never (s : string) (savedir : PathLike) (reader : Reader) x :
  spindle_plan (PStr s) savedir reader <> inr x.
Proof.
  unfold spindle_plan.
  repeat match goal with
         | |- bindR ?r _ <> _ => destruct r; cbn [bindR stem]; [discriminate|]
         end.
  discriminate.
Qed.

Lemma spindle_plan_str_after_success (s : string) (p : Path) (savedir : PathLike)
    (reader : Reader) x :
  spindle_plan (PPath p) savedir reader = inr x ->
  spindle_plan (PStr s) savedir reader = inl (AttributeError "stem").
Proof.
  unfold spindle_plan.
  repeat match goal with
         | |- bindR ?r _ = inr _ -> _ => destruct r; cbn [bindR]; [discriminate|]
         end.
  reflexivity.
Qed.

(** With a plan that cannot succeed nothing is written, and where another
    plan succeeds on the same reader the run ends in this plan's error. *)
Lemma open_plan_write_close_stuck (fp : Path)
    (plan plan' : Reader -> result (Path * Header * ndarray))
    (channels : Reader -> list Z) (w : World) (e : Exception) :
  (forall r x, plan r <> inr x) ->
  (forall r x, plan' r = inr x -> plan r = inl e) ->
  (open_plan_write_close fp plan channels w).1 <> inr tt /\
  files (open_plan_write_close fp plan channels w).2 = files w /\
  ((open_plan_write_close fp plan' channels w).1 = inr tt ->
   (open_plan_write_close fp plan channels w).1 = inl e).
Proof.
  intros Hnever Hafter. unfold open_plan_write_close.
  destruct (open_reader fp w) as [[e0|reader] w1] eqn:Hopen.
  - apply open_reader_inl in Hopen as ->. cbn.
    split; [discriminate|]. split; [reflexivity|]. discriminate.
  - apply open_reader_inr in Hopen as (h & d & ch & Hsrc & -> & ->).
    destruct (plan _) as [e0|x] eqn:Hplan; [|exfalso; eapply Hnever; exact Hplan].
    cbn. split; [discriminate|]. split; [reflexivity|].
    destruct (plan' _) as [e1|[[out header] data]] eqn:Hplan'; [discriminate|].
    intros _. apply Hafter in Hplan'. rewrite Hplan in Hplan'. injection Hplan' as ->. reflexivity.
Qed.

End Shape.

(** * Channel selection *)

Section Spindle.
Context {ext : Externals}.

Lemma bindR_inr {A B} (r : result A) (k : A -> result B) (y : B) :
  bindR r k = inr y -> exists x, r = inr x /\ k x = inr y.
Proof. destruct r as [e|x]; simpl; [discriminate|]. eauto. Qed.

Lemma spindle_plan_inr (path savedir : PathLike) (r : Reader) (out : Path)
    (header : Header) (data : ndarray) :
  spindle_plan path savedir r = inr (out, header, data) ->
  exists p dmin dmin' dmax dmax',
    path = PPath p /\
    reader_header r !! "digital_min" = Some dmin /\ int_all dmin = inr dmin' /\
    reader_header r !! "digital_max" = Some dmax /\ int_all dmax = inr dmax' /\
    out = output_path savedir p "_SPINDLE" /\
    header = spindle_header (reader_header r) dmin' dmax' /\
    data = reader_data r.
Proof.
  unfold spindle_plan. intros H.
  apply bindR_inr in H as (dmin & Hdmin & H).
  apply bindR_inr in H as (dmin' & Hdmin' & H).
  apply bindR_inr in H as (dmax & Hdmax & H).
  apply bindR_inr in H as (dmax' & Hdmax' & H).
  apply bindR_inr in H as (st & Hst & H).
  apply bindR_inr in H as (sf & Hsf & H).
  apply stem_inr in Hst as (p & -> & ->). simpl in Hsf. injection Hsf as <-.
  injection H as <- <- <-.
  apply getitem_Some in Hdmin, Hdmax.
  exists p, dmin, dmin', dmax, dmax'. repeat split; assumption.
Qed.





(** A plan that succeeds on the reader of an existing recording, with the
    writer free to open its file: the run ends as the writer's [write]
    does. *)
Lemma open_plan_write_close_run (fp : Path)
    (plan : Reader -> result (Path * Header * ndarray))
    (channels : Reader -> list Z) (w : World) (h : Header) (d : ndarray)
    (ch : list Z) (out : Path) (header : Header) (data : ndarray) :
  files w !! fp = Some (Edf h d ch) ->
  plan (reader_of fp h d ch) = inr (out, header, data) ->
  out ∉ dirs w -> parent out ∈ dirs w ->
  open_plan_write_close fp plan channels w =
    match writer_write header data (channels (reader_of fp h d ch)) with
    | None =>
        (inr tt,
         set_files w
           (<[out := Edf header data (channels (reader_of fp h d ch))]> (files w)))
    | Some e =>
        (inl e,
         set_files (set_readers w (fp :: readers w)) (<[out := EmptyFile]> (files w)))
    end.
Proof.
  intros Hsrc Hplan Hnd Hpar. unfold open_plan_write_close.
  rewrite (open_reader_Edf _ _ _ _ _ Hsrc), Hplan. unfold write_edf.
  cbn [dirs set_readers].
  destruct (decide (out ∈ dirs w)); [contradiction|].
  destruct (decide (parent out ∈ dirs w)); [|contradiction].
  destruct (writer_write _ _ _); [reflexivity|].
  unfold close_reader. cbn [readers set_files set_readers reader_path reader_of].
  rewrite remove_first_head. destruct w. reflexivity.
Qed.

(** A plan that fails after the reader was opened. *)
Lemma open_plan_write_close_plan_fails (fp : Path)
    (plan : Reader -> result (Path * Header * ndarray))
    (channels : Reader -> list Z) (w : World) (h : Header) (d : ndarray)
    (ch : list Z) (e : Exception) :
  files w !! fp = Some (Edf h d ch) ->
  plan (reader_of fp h d ch) = inl e ->
  open_plan_write_close fp plan channels w =
    (inl e, set_readers w (fp :: readers w)).
Proof.
  intros Hsrc Hplan. unfold open_plan_write_close.
  rewrite (open_reader_Edf _ _ _ _ _ Hsrc), Hplan. reflexivity.
Qed.



End Spindle.


(** The two channels of [data/rec01.edf] written in the order 1, 0. *)
Example spindle_reorders :
  (run_spindle [1; 0]).1 = inr tt /\
  match files (run_spindle [1; 0]).2 !! output_path out_dir rec01 "_SPINDLE" with
  | Some (Edf h' d' ch') =>
      ch' = [1; 0] /\ shape d' = [2; 5] /\ content d' = Recorded rec01 /\
      h' !! "digital_min" = Some (VInts [-32768; -32768]) /\
      h' !! "reserved_0" = Some (VStr "EDF+C")
  | _ => False
  end.
Proof. split; [vm_compute; reflexivity|]. vm_compute. repeat split. Qed.



(** * Paths given as strings *)

Section StrPaths.
Context {ext : Externals}.

Lemma standard_plan_str_trim_failure (s : string) (savedir : PathLike) (fs : Q)
    (m : Z) (trim_to trim_to' : list Q) (chunksize : Q) (axis : Z) (r : Reader)
    (n : Z) (st : string) (hrs : Q) :
  py_get (reader_shape r) axis = inr n ->
  trim_stop (PPath (Path_of_string s)) fs trim_to n
    = inl (ValueError (BelowTrim st hrs trim_to')) ->
  standard_plan (PStr s) savedir fs m trim_to chunksize axis r
    = inl (AttributeError "stem").
Proof.
  intros Hn Htrim. unfold standard_plan. rewrite Hn. cbn [bindR].
  destruct (trim_stop_str s (Path_of_string s) fs trim_to trim_to' n st hrs _ eq_refl)
    as (_ & Hstr & _).
  rewrite (Hstr Htrim). reflexivity.
Qed.

(** C10. With a [str] for [path], neither [standard] nor [spindle] ever
    returns normally, and neither writes a file.  Where the same call with
    [Path(path)] completes, the call with the [str] raises
    [AttributeError] (a [str] has no [stem]) at the construction of the
    output file name; and where [standard] with [Path(path)] reaches the
    trim failure with its documented [ValueError], the call with the [str]
    raises the [AttributeError] while building that message. *)
Theorem str_path_raises_AttributeError (s : string) (savedir : PathLike) (fs : Q)
    (m : Z) (trim_to : list Q) (chunksize : Q) (axis : Z) (channels : list Z)
    (verbose : bool) (w : World) :
  ((standard (PStr s) savedir fs m trim_to chunksize axis verbose w).1 <> inr tt /\
   files (standard (PStr s) savedir fs m trim_to chunksize axis verbose w).2 = files w /\
   ((standard (PPath (Path_of_string s)) savedir fs m trim_to chunksize axis verbose w).1
      = inr tt ->
    (standard (PStr s) savedir fs m trim_to chunksize axis verbose w).1
      = inl (AttributeError "stem")) /\
   (forall (h : Header) (d : ndarray) (ch : list Z) (n : Z) (st : string) (hrs : Q)
           (trim_to' : list Q),
      files w !! Path_of_string s = Some (Edf h d ch) ->
      py_get (shape d) axis = inr n ->
      trim_stop (PPath (Path_of_string s)) fs trim_to n
        = inl (ValueError (BelowTrim st hrs trim_to')) ->
      (standard (PStr s) savedir fs m trim_to chunksize axis verbose w).1
        = inl (AttributeError "stem"))) /\
  ((spindle (PStr s) savedir channels verbose w).1 <> inr tt /\
   files (spindle (PStr s) savedir channels verbose w).2 = files w /\
   ((spindle (PPath (Path_of_string s)) savedir channels verbose w).1 = inr tt ->
    (spindle (PStr s) savedir channels verbose w).1 = inl (AttributeError "stem"))).
Proof.
  split.
  - rewrite !standard_unfold. cbn [mkPath].
    destruct (open_plan_write_close_stuck (Path_of_string s)
                (standard_plan (PStr s) savedir fs m trim_to chunksize axis)
                (standard_plan (PPath (Path_of_string s)) savedir fs m trim_to
                   chunksize axis)
                reader_channels w (AttributeError "stem")) as (Hne & Hfiles & Hafter).
    + intros r x. apply standard_plan_str_never.
    + intros r x. apply standard_plan_str_after_success.
    + split; [exact Hne|]. split; [exact Hfiles|]. split; [exact Hafter|].
      intros h d ch n st hrs trim_to' Hsrc Hn Htrim.
      erewrite open_plan_write_close_plan_fails; [reflexivity|exact Hsrc|].
      eapply standard_plan_str_trim_failure; [exact Hn|exact Htrim].
  - rewrite !spindle_unfold. cbn [mkPath].
    apply (open_plan_write_close_stuck (Path_of_string s)
             (spindle_plan (PStr s) savedir)
             (spindle_plan (PPath (Path_of_string s)) savedir)
             (fun _ => channels) w (AttributeError "stem")).
    + intros r x. apply spindle_plan_str_never.
    + intros r x. apply spindle_plan_str_after_success.
Qed.

End StrPaths.

Lemma str_path_raises_AttributeError_witness :
  (run_standard_str short_recording).1 = inl (AttributeError "stem") /\
  (run_standard_str long_recording).1 = inl (AttributeError "stem") /\
  run_spindle_str.1 = inl (AttributeError "stem").
Proof.
  destruct (@str_path_raises_AttributeError demo_ext "data/rec01.edf" out_dir 5000 20
              [48; 72]%Q 3000000 (-1) [1; 0] true short_recording)
    as ((_ & _ & _ & Htrim) & _).
  destruct (@str_path_raises_AttributeError demo_ext "data/rec01.edf" out_dir 5000 20
              [48; 72]%Q 3000000 (-1) [1; 0] true long_recording)
    as ((_ & _ & Hlong & _) & _).
  destruct (@str_path_raises_AttributeError demo_ext "data/rec01.edf" out_dir 5000 20
              [48; 72]%Q 3000000 (-1) [1; 0] true (demo_world 5000 5))
    as (_ & _ & _ & Hspindle).
  split; [|split].
  - eapply Htrim; vm_compute; reflexivity.
  - apply Hlong. vm_compute. reflexivity.
  - apply Hspindle. vm_compute. reflexivity.
Defined.

(** The same calls evaluated. *)
Example str_path_runs :
  (run_standard_str short_recording).1 = inl (AttributeError "stem") /\
  (run_standard 20 short_recording).1
    = inl (ValueError (BelowTrim "rec01"
             (inject_Z (40 * 3600 * 5000) / (3600 * 5000)) [48; 72]%Q)) /\
  (run_standard_str long_recording).1 = inl (AttributeError "stem") /\
  (run_standard 20 long_recording).1 = inr tt /\
  run_spindle_str.1 = inl (AttributeError "stem") /\
  (run_spindle [1; 0]).1 = inr tt.
Proof. repeat split; vm_compute; reflexivity. Qed.

(** * The reader on the way out *)

Section Readers.
Context {ext : Externals}.

(** A run of a preprocessor that finds its recording closes the reader
    when it returns normally and leaves it open when it raises. *)
Lemma open_plan_write_close_readers (fp : Path)
    (plan : Reader -> result (Path * Header * ndarray))
    (channels : Reader -> list Z) (w w' : World) (u : result unit)
    (h : Header) (d : ndarray) (ch : list Z) :
  files w !! fp = Some (Edf h d ch) ->
  open_plan_write_close fp plan channels w = (u, w') ->
  readers w' = match u with
               | inr _ => readers w
               | inl _ => fp :: readers w
               end.
Proof.
  intros Hsrc H. destruct u as [e|u].
  - apply open_plan_write_close_inl in H as [[_ Hno]|(h0 & d0 & ch0 & _ & Hr & _)].
    + exfalso. eapply Hno. exact Hsrc.
    + exact Hr.
  - apply open_plan_write_close_inr in H as (? & ? & ? & ? & ? & ? & _ & _ & _ & _ & _ & ->).
    reflexivity.
Qed.

Lemma standard_readers (path savedir : PathLike) (fs : Q) (m : Z) (trim_to : list Q)
    (chunksize : Q) (axis : Z) (verbose : bool) (w w' : World) (u : result unit)
    (h : Header) (d : ndarray) (ch : list Z) :
  files w !! mkPath path = Some (Edf h d ch) ->
  standard path savedir fs m trim_to chunksize axis verbose w = (u, w') ->
  readers w' = match u with
               | inr _ => readers w
               | inl _ => mkPath path :: readers w
               end.
Proof. rewrite standard_unfold. apply open_plan_write_close_readers. Qed.

Lemma spindle_readers (path savedir : PathLike) (channels : list Z) (verbose : bool)
    (w w' : World) (u : result unit) (h : Header) (d : ndarray) (ch : list Z) :
  files w !! mkPath path = Some (Edf h d ch) ->
  spindle path savedir channels verbose w = (u, w') ->
  readers w' = match u with
               | inr _ => readers w
               | inl _ => mkPath path :: readers w
               end.
Proof. rewrite spindle_unfold. apply open_plan_write_close_readers. Qed.

(** C4. The reader is closed on the last line of each preprocessor and
    nowhere else: a run of [standard] or of [spindle] on a recording that
    exists ends with the readers as they were when it returns normally, and
    with the reader of that recording still open whenever it raises. *)
Theorem reader_closed_on_success_only (path savedir : PathLike) (fs : Q) (m : Z)
    (trim_to : list Q) (chunksize : Q) (axis : Z) (channels : list Z)
    (verbose : bool) (w : World) (h : Header) (d : ndarray) (ch : list Z) :
  files w !! mkPath path = Some (Edf h d ch) ->
  readers (standard path savedir fs m trim_to chunksize axis verbose w).2 =
    match (standard path savedir fs m trim_to chunksize axis verbose w).1 with
    | inr _ => readers w
    | inl _ => mkPath path :: readers w
    end /\
  readers (spindle path savedir channels verbose w).2 =
    match (spindle path savedir channels verbose w).1 with
    | inr _ => readers w
    | inl _ => mkPath path :: readers w
    end.
Proof.
  intros Hsrc. split.
  - eapply standard_readers; [exact Hsrc|]. apply surjective_pairing.
  - eapply spindle_readers; [exact Hsrc|]. apply surjective_pairing.
Qed.

End Readers.

Lemma reader_closed_on_success_only_witness :
  files short_recording !! rec01 =
    Some (Edf (demo_header 5000 1)
            {| content := Recorded rec01; shape := [2; 40 * 3600 * 5000] |} [0; 1]) /\
  readers (run_standard 20 short_recording).2 =
    match (run_standard 20 short_recording).1 with
    | inr _ => readers short_recording
    | inl _ => rec01 :: readers short_recording
    end /\
  readers (@spindle demo_ext (PPath rec01) out_dir [5] true short_recording).2 =
    match (@spindle demo_ext (PPath rec01) out_dir [5] true short_recording).1 with
    | inr _ => readers short_recording
    | inl _ => rec01 :: readers short_recording
    end.
Proof.
  assert (Hsrc : files short_recording !! rec01 =
            Some (Edf (demo_header 5000 1)
                    {| content := Recorded rec01; shape := [2; 40 * 3600 * 5000] |} [0; 1]))
    by (vm_compute; reflexivity).
  split; [exact Hsrc|].
  exact (@reader_closed_on_success_only demo_ext (PPath rec01) out_dir 5000 20
           [48; 72]%Q 3000000 (-1) [5] true short_recording _ _ _ Hsrc).
Defined.

(** The failing runs evaluated.  On 40 hours with the candidates 48 and 72
    [standard] raises the [ValueError] of the trim plan, and on a request
    for channel 5 of 2 [spindle] raises the writer's [IndexError]; in both
    runs no reader was open before, and the reader of [data/rec01.edf] is
    open when the exception leaves the function.  The runs that return
    leave no reader open. *)
Example failed_runs_leave_reader_open :
  (readers short_recording = [] /\
   (run_standard 20 short_recording).1
     = inl (ValueError (BelowTrim "rec01"
              (inject_Z (40 * 3600 * 5000) / (3600 * 5000)) [48; 72]%Q)) /\
   readers (run_standard 20 short_recording).2 = [rec01]) /\
  (readers (demo_world 5000 5) = [] /\
   (run_spindle [5]).1 = inl IndexError /\
   readers (run_spindle [5]).2 = [rec01]) /\
  (readers (run_standard 20 long_recording).2 = [] /\
   readers (run_spindle [1; 0]).2 = []).
Proof. repeat split; vm_compute; reflexivity. Qed.

(** * The batch *)

Lemma writes_into_refl (t : Path) (w : World) : writes_into t w w.
Proof. repeat split. Qed.

Lemma writes_into_trans (t : Path) (w1 w2 w3 : World) :
  writes_into t w1 w2 -> writes_into t w2 w3 -> writes_into t w1 w3.
Proof.
  intros (Hd & Hj & Hp & Hf) (Hd' & Hj' & Hp' & Hf').
  repeat split; try congruence.
  intros q Hq. rewrite Hf' by exact Hq. apply Hf. exact Hq.
Qed.

Lemma parent_joinpath (p : Path) (n : string) : parent (joinpath p n) = p.
Proof. unfold parent, joinpath. apply removelast_last. Qed.

Lemma bind_lift {A B} (r : result A) (k : A -> M B) (w : World) :
  bind (lift r) k w = match r with inl e => (inl e, w) | inr x => k x w end.
Proof. destruct r; reflexivity. Qed.

Section BatchFrames.
Context {ext : Externals}.

Lemma standard_plan_parent (path savedir : PathLike) (fs : Q) (m : Z)
    (trim_to : list Q) (chunksize : Q) (axis : Z) (r : Reader) (out : Path)
    (header : Header) (data : ndarray) :
  standard_plan path savedir fs m trim_to chunksize axis r = inr (out, header, data) ->
  parent out = mkPath savedir.
Proof.
  unfold standard_plan. intros H.
  do 13 (apply bindR_inr in H as (? & _ & H)).
  injection H as <- _ _. apply parent_joinpath.
Qed.

Lemma spindle_plan_parent (path savedir : PathLike) (r : Reader) (out : Path)
    (header : Header) (data : ndarray) :
  spindle_plan path savedir r = inr (out, header, data) ->
  parent out = mkPath savedir.
Proof.
  intros H. apply spindle_plan_inr in H as (p & ? & ? & ? & ? & _ & _ & _ & _ & _ & -> & _).
  apply parent_joinpath.
Qed.

(** Opening, planning, writing and closing touches the readers and the
    planned output file only. *)
Lemma open_plan_write_close_writes_into (fp t : Path)
    (plan : Reader -> result (Path * Header * ndarray))
    (channels : Reader -> list Z) (w : World) :
  (forall r out header data, plan r = inr (out, header, data) -> parent out = t) ->
  writes_into t w (open_plan_write_close fp plan channels w).2.
Proof.
  intros Hplan. unfold open_plan_write_close.
  destruct (open_reader fp w) as [[e|reader] w1] eqn:Hopen.
  - apply open_reader_inl in Hopen as ->. apply writes_into_refl.
  - apply open_reader_inr in Hopen as (h & d & ch & _ & -> & ->).
    destruct (plan _) as [e|[[out header] data]] eqn:Hout.
    + repeat split.
    + apply Hplan in Hout. unfold write_edf. cbn [dirs set_readers].
      destruct (decide (out ∈ dirs w)); [repeat split|].
      destruct (decide (parent out ∈ dirs w));
        [|destruct (decide _); repeat split].
      destruct (writer_write _ _ _); repeat split; cbn;
        intros q Hq; apply lookup_insert_ne; congruence.
Qed.

Lemma standard_writes_into (path savedir : PathLike) (fs : Q) (m : Z)
    (trim_to : list Q) (chunksize : Q) (axis : Z) (verbose : bool) (w : World) :
  writes_into (mkPath savedir) w
    (standard path savedir fs m trim_to chunksize axis verbose w).2.
Proof.
  rewrite standard_unfold. apply open_plan_write_close_writes_into.
  intros r out header data. apply standard_plan_parent.
Qed.

Lemma spindle_writes_into (path savedir : PathLike) (channels : list Z)
    (verbose : bool) (w : World) :
  writes_into (mkPath savedir) w (spindle path savedir channels verbose w).2.
Proof.
  rewrite spindle_unfold. apply open_plan_write_close_writes_into.
  intros r out header data. apply spindle_plan_parent.
Qed.

Lemma required_savedir (kw : Kwargs) (t : Path) :
  kw !! "savedir" = Some (VPath t) -> required kw "savedir" kw_pathlike = inr (PPath t).
Proof. intros H. unfold required. rewrite H. reflexivity. Qed.

Ltac skip_lift :=
  rewrite bind_lift;
  match goal with
  | |- context [match ?r with inl _ => _ | inr _ => _ end] =>
      destruct r; [apply writes_into_refl|]
  end.

Lemma standard_pp_Wellbehaved : Wellbehaved standard_pp.
Proof.
  intros p kw t w Hkw. cbn [pp_call standard_pp]. unfold call_standard.
  skip_lift. rewrite (required_savedir kw t Hkw). rewrite bind_lift.
  do 6 skip_lift.
  apply (standard_writes_into p (PPath t)).
Qed.

Lemma spindle_pp_Wellbehaved : Wellbehaved spindle_pp.
Proof.
  intros p kw t w Hkw. cbn [pp_call spindle_pp]. unfold call_spindle.
  skip_lift. rewrite (required_savedir kw t Hkw). rewrite bind_lift.
  do 2 skip_lift.
  apply (spindle_writes_into p (PPath t)).
Qed.

End BatchFrames.

Lemma name_joinpath (p : Path) (n : string) : name (joinpath p n) = n.
Proof. unfold name, joinpath. apply last_last. Qed.

Lemma mkdir_exists (t : Path) (w : World) :
  t ∈ dirs w -> mkdir t w = (inl (FileExistsError t), w).
Proof.
  intros H. unfold mkdir.
  destruct (decide (t ∈ dirs w ∨ is_Some (files w !! t))) as [_|Hn]; [reflexivity|].
  exfalso. apply Hn. left. exact H.
Qed.

Lemma mkdir_new (t : Path) (w : World) :
  t ∉ dirs w -> files w !! t = None -> parent t ∈ dirs w ->
  mkdir t w = (inr tt, set_dirs w ({[t]} ∪ dirs w)).
Proof.
  intros Hd Hf Hp. unfold mkdir.
  destruct (decide (t ∈ dirs w ∨ is_Some (files w !! t))) as [[H|H]|_].
  - contradiction.
  - rewrite Hf in H. destruct H as [x H]. discriminate.
  - destruct (decide (parent t ∈ dirs w)); [reflexivity|contradiction].
Qed.

Lemma mkdir_writes_into (t : Path) (w : World) :
  jobs (mkdir t w).2 = jobs w /\ pools (mkdir t w).2 = pools w /\
  files (mkdir t w).2 = files w /\
  ((mkdir t w).1 = inr tt -> t ∈ dirs (mkdir t w).2) /\
  ((mkdir t w).1 <> inr tt -> (mkdir t w).2 = w).
Proof.
  unfold mkdir. destruct (decide _); [cbn; repeat split; congruence|].
  destruct (decide _); [|destruct (decide _)]; cbn; repeat split; try congruence.
  intros _. apply elem_of_union. left. apply elem_of_singleton. reflexivity.
Qed.

Lemma job_kwargs_savedir (t : Path) (kw : Kwargs) :
  job_kwargs t kw !! "savedir" = Some (VPath t).
Proof. apply lookup_insert_eq. Qed.

Lemma job_kwargs_other (t : Path) (kw : Kwargs) (k : string) :
  k <> "savedir"%string -> job_kwargs t kw !! k = kw !! k.
Proof.
  intros H. unfold job_kwargs.
  rewrite lookup_insert_ne by congruence. apply lookup_delete_ne. congruence.
Qed.

Lemma job_kwargs_overrides (t : Path) (kw : Kwargs) (v : Value) :
  job_kwargs t (<["savedir" := v]> kw) = job_kwargs t kw.
Proof. unfold job_kwargs. rewrite delete_insert_eq. reflexivity. Qed.

Section BatchRuns.
Context {ext : Externals}.

Lemma pool_map_cons (func : Path -> M unit) (p : Path) (ps : list Path) (w : World) :
  pool_map func (p :: ps) w =
    match func p w with
    | (inr _, w') => pool_map func ps w'
    | (inl e, w') => (inl e, w')
    end.
Proof. reflexivity. Qed.

Lemma start_job_then {A} (p : Path) (kw : Kwargs) (k : M A) (w : World) :
  (start_job p kw ;;; k) w = k (set_jobs w (jobs w ++ [(p, kw)])).
Proof. reflexivity. Qed.

Lemma Pool_then {A} (workers : Z) (k : M A) (w : World) :
  (Pool workers ;;; k) w =
    if workers <? 1 then
      (inl (ValueError (Text "Number of processes must be at least 1")),
       set_pools w (pools w ++ [workers]))
    else k (set_pools w (pools w ++ [workers])).
Proof. unfold bind, Pool. destruct (workers <? 1); reflexivity. Qed.

(** The jobs of a pool: each is logged with the keyword arguments it is
    called with, and, the preprocessor being well behaved, changes files
    inside its [savedir] only. *)
Lemma pool_map_jobs (pp : Preprocessor) (kw : Kwargs) (t : Path) (paths : list Path) :
  Wellbehaved pp -> kw !! "savedir" = Some (VPath t) ->
  forall w : World,
    dirs (pool_map (fun p => start_job p kw ;;; pp_call pp (PPath p) kw) paths w).2
      = dirs w /\
    pools (pool_map (fun p => start_job p kw ;;; pp_call pp (PPath p) kw) paths w).2
      = pools w /\
    (forall q : Path, parent q <> t ->
       files (pool_map (fun p => start_job p kw ;;; pp_call pp (PPath p) kw) paths w).2
         !! q = files w !! q) /\
    exists done : list Path,
      jobs (pool_map (fun p => start_job p kw ;;; pp_call pp (PPath p) kw) paths w).2
        = jobs w ++ List.map (fun p => (p, kw)) done.
Proof.
  intros Hwb Hkw. induction paths as [|p ps IH]; intros w.
  - cbn. split; [reflexivity|]. split; [reflexivity|]. split; [reflexivity|].
    exists []. symmetry. apply app_nil_r.
  - rewrite pool_map_cons. cbv beta. rewrite start_job_then.
    destruct (Hwb (PPath p) kw t (set_jobs w (jobs w ++ [(p, kw)])) Hkw)
      as (Hd & Hj & Hp & Hf).
    destruct (pp_call pp (PPath p) kw _) as [[e|u] w2]; cbn [snd] in *.
    + split; [exact Hd|]. split; [exact Hp|]. split; [exact Hf|].
      exists [p]. exact Hj.
    + destruct (IH w2) as (Hd' & Hp' & Hf' & done & Hj').
      split; [rewrite Hd'; exact Hd|]. split; [rewrite Hp'; exact Hp|]. split.
      * intros q Hq. rewrite Hf' by exact Hq. apply Hf. exact Hq.
      * exists (p :: done). rewrite Hj', Hj. cbn [jobs set_jobs List.map].
        rewrite <- app_assoc. reflexivity.
Qed.

(** The batch after [target.mkdir()]: the files are listed, the pool is
    sized and the jobs are mapped. *)
Lemma batch_after_mkdir (pp : Preprocessor) (dirpath : PathLike)
    (target : option PathLike) (ncores : option Z) (verbose : bool)
    (kwargs : Kwargs) (w : World) :
  batch pp dirpath target ncores verbose kwargs w =
    match mkdir (resolve_target pp dirpath target) w with
    | (inl e, w1) => (inl e, w1)
    | (inr _, w1) =>
        (Pool (set_cores ncores (Z.of_nat (length (edf_paths (mkPath dirpath) w1)))) ;;;
         pool_map
           (fun p =>
              start_job p (job_kwargs (resolve_target pp dirpath target) kwargs) ;;;
              pp_call pp (PPath p) (job_kwargs (resolve_target pp dirpath target) kwargs))
           (edf_paths (mkPath dirpath) w1)) w1
    end.
Proof.
  unfold batch. unfold bind at 1.
  destruct (mkdir _ w) as [[e|u] w1]; reflexivity.
Qed.

Lemma batch_target_exists (pp : Preprocessor) (dirpath : PathLike)
    (target : option PathLike) (ncores : option Z) (verbose : bool)
    (kwargs : Kwargs) (w : World) :
  resolve_target pp dirpath target ∈ dirs w ->
  batch pp dirpath target ncores verbose kwargs w =
    (inl (FileExistsError (resolve_target pp dirpath target)), w).
Proof.
  intros H. rewrite batch_after_mkdir, (mkdir_exists _ _ H). reflexivity.
Qed.

(** Once the target directory is made. *)
Lemma batch_target_new (pp : Preprocessor) (dirpath : PathLike)
    (target : option PathLike) (ncores : option Z) (verbose : bool)
    (kwargs : Kwargs) (w : World) :
  resolve_target pp dirpath target ∉ dirs w ->
  files w !! resolve_target pp dirpath target = None ->
  parent (resolve_target pp dirpath target) ∈ dirs w ->
  batch pp dirpath target ncores verbose kwargs w =
    (Pool (set_cores ncores
             (Z.of_nat (length
                (edf_paths (mkPath dirpath)
                   (set_dirs w ({[resolve_target pp dirpath target]} ∪ dirs w)))))) ;;;
     pool_map
       (fun p =>
          start_job p (job_kwargs (resolve_target pp dirpath target) kwargs) ;;;
          pp_call pp (PPath p) (job_kwargs (resolve_target pp dirpath target) kwargs))
       (edf_paths (mkPath dirpath)
          (set_dirs w ({[resolve_target pp dirpath target]} ∪ dirs w))))
      (set_dirs w ({[resolve_target pp dirpath target]} ∪ dirs w)).
Proof.
  intros Hd Hf Hp. rewrite batch_after_mkdir, (mkdir_new _ _ Hd Hf Hp). reflexivity.
Qed.

(** The pool and its jobs, from a world [w1]. *)
Lemma pool_run (pp : Preprocessor) (kw : Kwargs) (t : Path) (workers : Z)
    (paths : list Path) (w1 : World) :
  Wellbehaved pp -> kw !! "savedir" = Some (VPath t) ->
  dirs ((Pool workers ;;;
         pool_map (fun p => start_job p kw ;;; pp_call pp (PPath p) kw) paths) w1).2
    = dirs w1 /\
  pools ((Pool workers ;;;
          pool_map (fun p => start_job p kw ;;; pp_call pp (PPath p) kw) paths) w1).2
    = pools w1 ++ [workers] /\
  (forall q : Path, parent q <> t ->
     files ((Pool workers ;;;
             pool_map (fun p => start_job p kw ;;; pp_call pp (PPath p) kw) paths) w1).2
       !! q = files w1 !! q) /\
  exists done : list Path,
    jobs ((Pool workers ;;;
           pool_map (fun p => start_job p kw ;;; pp_call pp (PPath p) kw) paths) w1).2
      = jobs w1 ++ List.map (fun p => (p, kw)) done.
Proof.
  intros Hwb Hkw. rewrite Pool_then.
  destruct (workers <? 1); cbn [snd].
  - split; [reflexivity|]. split; [reflexivity|]. split; [reflexivity|].
    exists []. symmetry. apply app_nil_r.
  - destruct (pool_map_jobs pp kw t paths Hwb Hkw (set_pools w1 (pools w1 ++ [workers])))
      as (Hd & Hp & Hf & done & Hj).
    split; [exact Hd|]. split; [exact Hp|]. split; [exact Hf|].
    exists done. exact Hj.
Qed.

End BatchRuns.

Section BatchClaims.
Context {ext : Externals}.

(** C6 (amended). A batch whose target directory can be made, over a
    directory with [k] entries matching [*edf], asks for a pool of
    [min(requested if given else c, c, k)] workers, [c] being the number of
    cores; on a machine with at least one core and with a requested count,
    if given, of at least one, that number is 0 only when [k] is 0. *)
Theorem batch_worker_count (pp : Preprocessor) (dirpath : PathLike)
    (target : option PathLike) (ncores : option Z) (verbose : bool)
    (kwargs : Kwargs) (w : World) :
  Wellbehaved pp ->
  resolve_target pp dirpath target ∉ dirs w ->
  files w !! resolve_target pp dirpath target = None ->
  parent (resolve_target pp dirpath target) ∈ dirs w ->
  exists k : Z,
    k = Z.of_nat (length (edf_paths (mkPath dirpath)
                    (set_dirs w ({[resolve_target pp dirpath target]} ∪ dirs w)))) /\
    set_cores ncores k = Z.min (Z.min (default cpu_count ncores) cpu_count) k /\
    pools (batch pp dirpath target ncores verbose kwargs w).2
      = pools w ++ [set_cores ncores k] /\
    (1 <= cpu_count -> (forall n : Z, ncores = Some n -> 1 <= n) ->
     set_cores ncores k = 0 -> k = 0).
Proof.
  intros Hwb Hd Hf Hp. eexists. split; [reflexivity|]. split; [reflexivity|]. split.
  - rewrite (batch_target_new pp dirpath target ncores verbose kwargs w Hd Hf Hp).
    destruct (pool_run pp (job_kwargs (resolve_target pp dirpath target) kwargs)
                (resolve_target pp dirpath target)
                (set_cores ncores
                   (Z.of_nat (length (edf_paths (mkPath dirpath)
                      (set_dirs w ({[resolve_target pp dirpath target]} ∪ dirs w))))))
                (edf_paths (mkPath dirpath)
                   (set_dirs w ({[resolve_target pp dirpath target]} ∪ dirs w)))
                (set_dirs w ({[resolve_target pp dirpath target]} ∪ dirs w))
                Hwb (job_kwargs_savedir _ _)) as (_ & Hpools & _).
    exact Hpools.
  - intros Hc Hn. unfold set_cores. destruct ncores as [n|]; simpl.
    + specialize (Hn n eq_refl). lia.
    + lia.
Qed.

(** C7. Without a target, the target of a batch is the subdirectory of the
    source directory named after the preprocessor.  When that directory
    exists the batch fails with [FileExistsError] and nothing else has
    happened: the world is as it was, no file was listed, no pool made and
    no job run.  When it does not exist (and the source directory does) it
    exists after the batch. *)
Theorem batch_auto_target (pp : Preprocessor) (dirpath : PathLike)
    (ncores : option Z) (verbose : bool) (kwargs : Kwargs) (w : World) :
  resolve_target pp dirpath None = joinpath (mkPath dirpath) (pp_name pp) /\
  parent (joinpath (mkPath dirpath) (pp_name pp)) = mkPath dirpath /\
  name (joinpath (mkPath dirpath) (pp_name pp)) = pp_name pp /\
  (joinpath (mkPath dirpath) (pp_name pp) ∈ dirs w ->
   batch pp dirpath None ncores verbose kwargs w =
     (inl (FileExistsError (joinpath (mkPath dirpath) (pp_name pp))), w)) /\
  (Wellbehaved pp ->
   joinpath (mkPath dirpath) (pp_name pp) ∉ dirs w ->
   files w !! joinpath (mkPath dirpath) (pp_name pp) = None ->
   mkPath dirpath ∈ dirs w ->
   joinpath (mkPath dirpath) (pp_name pp)
     ∈ dirs (batch pp dirpath None ncores verbose kwargs w).2).
Proof.
  split; [reflexivity|]. split; [apply parent_joinpath|].
  split; [apply name_joinpath|]. split.
  - intros H. apply (batch_target_exists pp dirpath None). exact H.
  - intros Hwb Hd Hf Hp.
    assert (Hp' : parent (resolve_target pp dirpath None) ∈ dirs w).
    { cbn [resolve_target]. rewrite parent_joinpath. exact Hp. }
    rewrite (batch_target_new pp dirpath None ncores verbose kwargs w Hd Hf Hp').
    cbn [resolve_target].
    destruct (pool_run pp (job_kwargs (joinpath (mkPath dirpath) (pp_name pp)) kwargs)
                (joinpath (mkPath dirpath) (pp_name pp))
                (set_cores ncores
                   (Z.of_nat (length (edf_paths (mkPath dirpath)
                      (set_dirs w ({[joinpath (mkPath dirpath) (pp_name pp)]} ∪ dirs w))))))
                (edf_paths (mkPath dirpath)
                   (set_dirs w ({[joinpath (mkPath dirpath) (pp_name pp)]} ∪ dirs w)))
                (set_dirs w ({[joinpath (mkPath dirpath) (pp_name pp)]} ∪ dirs w))
                Hwb (job_kwargs_savedir _ _)) as (Hdirs & _ & _ & _).
    rewrite Hdirs. cbn [dirs set_dirs].
    apply elem_of_union. left. apply elem_of_singleton. reflexivity.
Qed.

(** C8. A [savedir] among the keyword arguments of a batch makes no
    difference to what the batch does.  Every job the batch starts is
    called with the keyword arguments of the caller, [savedir] replaced by
    the resolved target, and no file outside the target directory is
    created or changed. *)
Theorem batch_savedir_is_target (pp : Preprocessor) (dirpath : PathLike)
    (target : option PathLike) (ncores : option Z) (verbose : bool)
    (kwargs : Kwargs) (v : Value) (w : World) :
  Wellbehaved pp ->
  batch pp dirpath target ncores verbose (<["savedir" := v]> kwargs) w
    = batch pp dirpath target ncores verbose kwargs w /\
  job_kwargs (resolve_target pp dirpath target) kwargs !! "savedir"
    = Some (VPath (resolve_target pp dirpath target)) /\
  (forall k : string, k <> "savedir"%string ->
     job_kwargs (resolve_target pp dirpath target) kwargs !! k = kwargs !! k) /\
  (exists done : list Path,
     jobs (batch pp dirpath target ncores verbose kwargs w).2 =
       jobs w ++ List.map
         (fun p => (p, job_kwargs (resolve_target pp dirpath target) kwargs)) done) /\
  (forall q : Path, parent q <> resolve_target pp dirpath target ->
     files (batch pp dirpath target ncores verbose kwargs w).2 !! q = files w !! q).
Proof.
  intros Hwb. split.
  { unfold batch. rewrite job_kwargs_overrides. reflexivity. }
  split; [apply job_kwargs_savedir|]. split; [intros k; apply job_kwargs_other|].
  rewrite batch_after_mkdir.
  destruct (mkdir_writes_into (resolve_target pp dirpath target) w)
    as (Hj & _ & Hf & _ & _).
  destruct (mkdir (resolve_target pp dirpath target) w) as [[e|u] w1]; cbn [snd] in *.
  - rewrite Hj, Hf. split; [|reflexivity]. exists []. symmetry. apply app_nil_r.
  - destruct (pool_run pp (job_kwargs (resolve_target pp dirpath target) kwargs)
                (resolve_target pp dirpath target)
                (set_cores ncores (Z.of_nat (length (edf_paths (mkPath dirpath) w1))))
                (edf_paths (mkPath dirpath) w1) w1
                Hwb (job_kwargs_savedir _ _)) as (_ & _ & Hfiles & done & Hjobs).
    rewrite <- Hj, <- Hf. split; [exists done; exact Hjobs|exact Hfiles].
Qed.

End BatchClaims.

Ltac by_evaluation := apply (bool_decide_unpack _); vm_compute; exact I.

Lemma batch_worker_count_witness :
  Wellbehaved (@standard_pp demo_ext) /\
  (resolve_target (@standard_pp demo_ext) data_dir None ∉ dirs two_recordings) /\
  files two_recordings !! resolve_target (@standard_pp demo_ext) data_dir None = None /\
  parent (resolve_target (@standard_pp demo_ext) data_dir None) ∈ dirs two_recordings /\
  exists k : Z,
    k = Z.of_nat (length (edf_paths (mkPath data_dir)
          (set_dirs two_recordings
             ({[resolve_target (@standard_pp demo_ext) data_dir None]}
                ∪ dirs two_recordings)))) /\
    @set_cores demo_ext None k
      = Z.min (Z.min (default (@cpu_count demo_ext) None) (@cpu_count demo_ext)) k /\
    pools (@batch demo_ext (@standard_pp demo_ext) data_dir None None true
             standard_kwargs two_recordings).2
      = pools two_recordings ++ [@set_cores demo_ext None k] /\
    (1 <= @cpu_count demo_ext -> (forall n : Z, @None Z = Some n -> 1 <= n) ->
     @set_cores demo_ext None k = 0 -> k = 0).
Proof.
  assert (Hd : resolve_target (@standard_pp demo_ext) data_dir None ∉ dirs two_recordings)
    by by_evaluation.
  assert (Hf : files two_recordings
                 !! resolve_target (@standard_pp demo_ext) data_dir None = None)
    by (vm_compute; reflexivity).
  assert (Hp : parent (resolve_target (@standard_pp demo_ext) data_dir None)
                 ∈ dirs two_recordings) by by_evaluation.
  split; [exact standard_pp_Wellbehaved|]. split; [exact Hd|]. split; [exact Hf|].
  split; [exact Hp|].
  exact (@batch_worker_count demo_ext (@standard_pp demo_ext) data_dir None None true
           standard_kwargs two_recordings standard_pp_Wellbehaved Hd Hf Hp).
Defined.

(** Two files on eight cores: a pool of two. *)
Example batch_two_files :
  length (edf_paths (mkPath data_dir) two_recordings) = 2%nat /\
  (run_batch data_dir None None standard_kwargs two_recordings).1 = inr tt /\
  pools (run_batch data_dir None None standard_kwargs two_recordings).2 = [2] /\
  pools (run_batch data_dir None (Some 1) standard_kwargs two_recordings).2 = [1] /\
  pools (run_batch data_dir None (Some 16) standard_kwargs two_recordings).2 = [2].
Proof. repeat split; vm_compute; reflexivity. Qed.

(** C6, as stated, fails.  The directory [out] holds no EDF file: the
    batch over it makes the directory [out/standard], asks for a pool of 0
    workers and ends in the [ValueError] of [Pool].  And with 0 workers
    requested the worker count is 0 over the two files of [data]. *)
Lemma batch_over_no_files_fails :
  (edf_paths (mkPath out_dir) two_recordings = [] /\
   (run_batch out_dir None None standard_kwargs two_recordings).1
     = inl (ValueError (Text "Number of processes must be at least 1")) /\
   pools (run_batch out_dir None None standard_kwargs two_recordings).2 = [0] /\
   (["out"; "standard"]%string ∉ dirs two_recordings) /\
   ["out"; "standard"]%string
     ∈ dirs (run_batch out_dir None None standard_kwargs two_recordings).2) /\
  (length (edf_paths (mkPath data_dir) two_recordings) = 2%nat /\
   @set_cores demo_ext (Some 0) 2 = 0 /\
   pools (run_batch data_dir None (Some 0) standard_kwargs two_recordings).2 = [0]).
Proof.
  split.
  - split; [vm_compute; reflexivity|]. split; [vm_compute; reflexivity|].
    split; [vm_compute; reflexivity|]. split; by_evaluation.
  - repeat split; vm_compute; reflexivity.
Qed.

Lemma batch_auto_target_witness :
  (run_batch data_dir None None standard_kwargs already_preprocessed
     = (inl (FileExistsError ["data"; "standard"]%string), already_preprocessed)) /\
  ["data"; "standard"]%string
    ∈ dirs (run_batch data_dir None None standard_kwargs two_recordings).2.
Proof.
  destruct (@batch_auto_target demo_ext (@standard_pp demo_ext) data_dir None true
              standard_kwargs already_preprocessed) as (_ & _ & _ & Hexists & _).
  destruct (@batch_auto_target demo_ext (@standard_pp demo_ext) data_dir None true
              standard_kwargs two_recordings) as (_ & _ & _ & _ & Hnew).
  split.
  - apply Hexists. by_evaluation.
  - apply Hnew; [exact standard_pp_Wellbehaved|by_evaluation|vm_compute; reflexivity
                |by_evaluation].
Defined.

Lemma batch_savedir_is_target_witness :
  Wellbehaved (@standard_pp demo_ext) /\
  run_batch data_dir None None (<["savedir" := VStr "elsewhere"]> standard_kwargs)
    two_recordings
    = run_batch data_dir None None standard_kwargs two_recordings /\
  (exists done : list Path,
     jobs (run_batch data_dir None None standard_kwargs two_recordings).2 =
       jobs two_recordings ++
       List.map (fun p => (p, job_kwargs ["data"; "standard"]%string standard_kwargs))
         done) /\
  (forall q : Path, parent q <> ["data"; "standard"]%string ->
     files (run_batch data_dir None None standard_kwargs two_recordings).2 !! q
       = files two_recordings !! q).
Proof.
  destruct (@batch_savedir_is_target demo_ext (@standard_pp demo_ext) data_dir None None
              true standard_kwargs (VStr "elsewhere") two_recordings
              standard_pp_Wellbehaved) as (Hsame & _ & _ & Hjobs & Hfiles).
  split; [exact standard_pp_Wellbehaved|]. split; [exact Hsame|].
  split; [exact Hjobs|exact Hfiles].
Defined.

(** The jobs of the script's own call, with a [savedir] slipped in. *)
Example batch_jobs :
  List.map (fun j => (j.1, j.2 !! "savedir"))
    (jobs (run_batch data_dir None None
             (<["savedir" := VStr "elsewhere"]> standard_kwargs) two_recordings).2)
  = [(rec02, Some (VPath ["data"; "standard"]%string));
     (rec01, Some (VPath ["data"; "standard"]%string))] /\
  List.map fst
    (map_to_list (files (run_batch data_dir None None
             (<["savedir" := VStr "elsewhere"]> standard_kwargs) two_recordings).2))
  = [["data"; "standard"; "rec02_PREPROCESSED.edf"];
     ["data"; "standard"; "rec01_PREPROCESSED.edf"]; rec02; rec01]%string.
Proof. split; vm_compute; reflexivity. Qed.

(** * More on the trim plan *)







(** Without candidates there is nothing to trim to: with an empty [trim_to]
    the plan fails for every recording. *)
Theorem trim_stop_no_candidates (x : PathLike) (fs : Q) (N : Z) :
  exists e : Exception, trim_stop x fs [] N = inl e /\
    (forall p, x = PPath p -> ~ fs == 0 ->
       e = ValueError (BelowTrim (path_stem p) (inject_Z N / (3600 * fs)) [])).
Proof.
  unfold trim_stop. cbn.
  destruct (Qeq_bool (3600 * fs) 0) eqn:E.
  - eexists. split; [reflexivity|]. intros p _ Hfs. exfalso. apply Hfs.
    apply Qeq_bool_eq in E. apply (Qmult_integral 3600) in E. destruct E as [E|E]; [discriminate|exact E].
  - destruct x as [s|p]; cbn.
    + eexists. split; [reflexivity|]. discriminate.
    + eexists. split; [reflexivity|]. intros p0 [= <-] _. reflexivity.
Qed.

(** * Names of the output files *)

Lemma append_cons (a : ascii) (s t : string) :
  (String a s ++ t)%string = String a (s ++ t)%string.
Proof. reflexivity. Qed.

Lemma append_nil_r (s : string) : (s ++ "")%string = s.
Proof. induction s as [|a s IH]; [reflexivity|]. rewrite append_cons, IH. reflexivity. Qed.

Lemma substring_all (s : string) : String.substring 0 (String.length s) s = s.
Proof. induction s as [|a s IH]; [reflexivity|]. simpl. f_equal. exact IH. Qed.

Lemma substring_split (s : string) (i : nat) :
  (i <= String.length s)%nat ->
  (String.substring 0 i s ++ String.substring i (String.length s - i) s)%string = s.
Proof.
  revert i. induction s as [|a s IH]; intros i Hi.
  - destruct i; [reflexivity|simpl in Hi; lia].
  - destruct i as [|i].
    + rewrite Nat.sub_0_r. change (String.substring 0 0 (String a s)) with EmptyString.
      cbn [String.append]. apply substring_all.
    + simpl. rewrite append_cons. f_equal. apply IH. simpl in Hi. lia.
Qed.

(** A name is its stem followed by its suffix. *)
Lemma path_stem_suffix (p : Path) :
  (path_stem p ++ path_suffix p)%string = name p.
Proof.
  unfold path_stem, path_suffix. cbv zeta. unfold suffix_index.
  destruct (rfind "." (name p)) as [i|]; [|apply append_nil_r].
  destruct (_ && _)%bool eqn:E; [|apply append_nil_r].
  apply andb_true_iff in E as [_ E]. apply Nat.ltb_lt in E.
  apply substring_split. lia.
Qed.

Lemma length_append (s t : string) :
  String.length (s ++ t)%string = (String.length s + String.length t)%nat.
Proof.
  induction s as [|a s IH]; [reflexivity|].
  rewrite append_cons. simpl. f_equal. exact IH.
Qed.

(** The output of a preprocessor is never its input: the tag makes the
    name longer. *)
Lemma output_path_fresh (savedir : PathLike) (p : Path) (tag : string) :
  tag <> EmptyString -> output_path savedir p tag <> p.
Proof.
  intros Htag E. assert (Hn : name (output_path savedir p tag) = name p) by (rewrite E; reflexivity).
  unfold output_path in Hn. rewrite name_joinpath in Hn.
  rewrite <- path_stem_suffix in Hn.
  apply (f_equal String.length) in Hn. rewrite !length_append in Hn.
  destruct tag; [congruence|]. simpl in Hn. lia.
Qed.

(** * What a run of [standard] leaves behind *)

Section StandardOutput.
Context {ext : Externals}.

Lemma standard_plan_out (path savedir : PathLike) (fs : Q) (m : Z)
    (trim_to : list Q) (chunksize : Q) (axis : Z) (r : Reader) (out : Path)
    (header : Header) (data : ndarray) :
  standard_plan path savedir fs m trim_to chunksize axis r = inr (out, header, data) ->
  exists p, path = PPath p /\ out = output_path savedir p "_PREPROCESSED".
Proof.
  unfold standard_plan. intros H.
  do 11 (apply bindR_inr in H as (? & _ & H)).
  apply bindR_inr in H as (st & Hst & H).
  apply bindR_inr in H as (sf & Hsf & H).
  apply stem_inr in Hst as (p & -> & ->). simpl in Hsf. injection Hsf as <-.
  injection H as <- _ _. eauto.
Qed.

Lemma spindle_plan_out (path savedir : PathLike) (r : Reader) (out : Path)
    (header : Header) (data : ndarray) :
  spindle_plan path savedir r = inr (out, header, data) ->
  exists p, path = PPath p /\ out = output_path savedir p "_SPINDLE".
Proof.
  intros H. apply spindle_plan_inr in H
    as (p & ? & ? & ? & ? & -> & _ & _ & _ & _ & -> & _).
  eauto.
Qed.

(** Whatever its outcome, a run changes no file but the one its plan
    names. *)
Lemma open_plan_write_close_files (fp out : Path)
    (plan : Reader -> result (Path * Header * ndarray))
    (channels : Reader -> list Z) (w : World) (q : Path) :
  (forall r o header data, plan r = inr (o, header, data) -> o = out) ->
  q <> out ->
  files (open_plan_write_close fp plan channels w).2 !! q = files w !! q.
Proof.
  intros Hplan Hq. unfold open_plan_write_close.
  destruct (open_reader fp w) as [[e|reader] w1] eqn:Hopen.
  - apply open_reader_inl in Hopen as ->. reflexivity.
  - apply open_reader_inr in Hopen as (h & d & ch & _ & -> & ->).
    destruct (plan _) as [e|[[o header] data]] eqn:Ho; [reflexivity|].
    apply Hplan in Ho as ->. unfold write_edf. cbn [dirs set_readers].
    destruct (decide (out ∈ dirs w)); [reflexivity|].
    destruct (decide (parent out ∈ dirs w)); [|destruct (decide _); reflexivity].
    destruct (writer_write _ _ _); cbn; apply lookup_insert_ne; congruence.
Qed.

(** A plan that cannot succeed: the run raises and no file changes. *)
Lemma open_plan_write_close_never (fp : Path)
    (plan : Reader -> result (Path * Header * ndarray))
    (channels : Reader -> list Z) (w : World) :
  (forall r x, plan r <> inr x) ->
  (open_plan_write_close fp plan channels w).1 <> inr tt /\
  files (open_plan_write_close fp plan channels w).2 = files w.
Proof.
  intros Hnever. unfold open_plan_write_close.
  destruct (open_reader fp w) as [[e|reader] w1] eqn:Hopen.
  - apply open_reader_inl in Hopen as ->. split; [discriminate|reflexivity].
  - apply open_reader_inr in Hopen as (h & d & ch & _ & -> & ->).
    destruct (plan _) as [e|x] eqn:Hplan; [|exfalso; eapply Hnever; exact Hplan].
    split; [discriminate|reflexivity].
Qed.

(** A finished run of [standard] has written one file, named after the
    source with [_PREPROCESSED] before the extension, inside [savedir]: it
    holds every channel of the source, and its samples are those of the
    source from the first up to the stop index of the trim plan, decimated
    by [downsample].  No other file and no directory has changed. *)
Theorem standard_writes_trimmed_downsampled (path savedir : PathLike) (fs : Q)
    (m : Z) (trim_to : list Q) (chunksize : Q) (axis : Z) (verbose : bool)
    (w w' : World) :
  standard path savedir fs m trim_to chunksize axis verbose w = (inr tt, w') ->
  exists (p : Path) (h : Header) (d : ndarray) (ch : list Z) (n stop : Z)
         (shp : list Z) (h' : Header),
    path = PPath p /\
    files w !! p = Some (Edf h d ch) /\
    py_get (shape d) axis = inr n /\
    trim_stop (PPath p) fs trim_to n = inr stop /\
    downsample_shape (between_pro_shape (shape d) 0 stop axis) m fs chunksize axis
      = inr shp /\
    files w' =
      <[joinpath (mkPath savedir) (path_stem p ++ "_PREPROCESSED" ++ path_suffix p)%string :=
          Edf h' {| content := Downsampled p 0 stop chunksize axis m fs; shape := shp |} ch]>
        (files w) /\
    dirs w' = dirs w.
Proof.
  intros H. apply standard_inr in H as (p & -> & []).
  unfold downsampled in sr_down. cbn [reader_shape reader_data reader_path] in sr_down.
  destruct (downsample_shape _ _ _ _ _) as [e|shp] eqn:Hshp; [discriminate|].
  injection sr_down as <-.
  exists p, h, d, ch, n, stop, shp, (standard_header h spr' nrec dmin' dmax').
  repeat split; assumption.
Qed.

Lemma int_all_ints (v v' : Value) : int_all v = inr v' -> exists zs, v' = VInts zs.
Proof.
  destruct v; simpl; try discriminate;
    try (intros [= <-]; eauto; fail);
    (destruct (mapR _ _); [discriminate|]; intros [= <-]; eauto).
Qed.

(** The header of a file written by [standard]: [reserved_0] is emptied
    (EDF+ becomes EDF), [digital_min] and [digital_max] are the source's,
    converted to lists of integers, and apart from these three,
    [samples_per_record] and [num_records], every field is the source's. *)
Theorem standard_header_edits (path savedir : PathLike) (fs : Q) (m : Z)
    (trim_to : list Q) (chunksize : Q) (axis : Z) (verbose : bool) (w w' : World) :
  standard path savedir fs m trim_to chunksize axis verbose w = (inr tt, w') ->
  exists (p : Path) (h : Header) (d : ndarray) (ch : list Z) (h' : Header)
         (d' : ndarray) (dmin dmax : Value) (mins maxs : list Z),
    path = PPath p /\
    files w !! p = Some (Edf h d ch) /\
    files w' !! output_path savedir p "_PREPROCESSED" = Some (Edf h' d' ch) /\
    h' !! "reserved_0" = Some (VStr "") /\
    h !! "digital_min" = Some dmin /\ int_all dmin = inr (VInts mins) /\
    h' !! "digital_min" = Some (VInts mins) /\
    h !! "digital_max" = Some dmax /\ int_all dmax = inr (VInts maxs) /\
    h' !! "digital_max" = Some (VInts maxs) /\
    (forall k : string,
       k ∉ ["samples_per_record"; "num_records"; "reserved_0"; "digital_min";
            "digital_max"]%string ->
       h' !! k = h !! k).
Proof.
  intros H. apply standard_inr in H as (p & -> & []).
  destruct (int_all_ints _ _ sr_dmin_int) as [mins ->].
  destruct (int_all_ints _ _ sr_dmax_int) as [maxs ->].
  exists p, h, d, ch, (standard_header h spr' nrec (VInts mins) (VInts maxs)), processed,
    dmin, dmax, mins, maxs.
  split; [reflexivity|]. split; [assumption|].
  split; [rewrite sr_files; apply lookup_insert_eq|].
  unfold standard_header.
  split; [rewrite !lookup_insert_ne by discriminate; apply lookup_insert_eq|].
  split; [assumption|]. split; [assumption|].
  split; [rewrite lookup_insert_ne by discriminate; apply lookup_insert_eq|].
  split; [assumption|]. split; [assumption|].
  split; [apply lookup_insert_eq|].
  intros k Hk. rewrite !lookup_insert_ne; [reflexivity|..];
    intros <-; apply Hk; repeat constructor.
Qed.

(** No run of a preprocessor, whatever its outcome, changes a file other
    than its output file, and the output file is never the input: the
    recording read is as it was, also when [savedir] is its own
    directory. *)
Theorem only_the_output_file_changes (p : Path) (savedir : PathLike) (fs : Q)
    (m : Z) (trim_to : list Q) (chunksize : Q) (axis : Z) (channels : list Z)
    (verbose : bool) (w : World) :
  (forall q : Path, q <> output_path savedir p "_PREPROCESSED" ->
     files (standard (PPath p) savedir fs m trim_to chunksize axis verbose w).2 !! q
       = files w !! q) /\
  (forall q : Path, q <> output_path savedir p "_SPINDLE" ->
     files (spindle (PPath p) savedir channels verbose w).2 !! q = files w !! q) /\
  files (standard (PPath p) savedir fs m trim_to chunksize axis verbose w).2 !! p
    = files w !! p /\
  files (spindle (PPath p) savedir channels verbose w).2 !! p = files w !! p.
Proof.
  assert (Hstd : forall q : Path, q <> output_path savedir p "_PREPROCESSED" ->
     files (standard (PPath p) savedir fs m trim_to chunksize axis verbose w).2 !! q
       = files w !! q).
  { intros q Hq. rewrite standard_unfold. apply open_plan_write_close_files with
      (out := output_path savedir p "_PREPROCESSED"); [|exact Hq].
    intros r o header data Ho. apply standard_plan_out in Ho as (p0 & [= <-] & ->).
    reflexivity. }
  assert (Hspn : forall q : Path, q <> output_path savedir p "_SPINDLE" ->
     files (spindle (PPath p) savedir channels verbose w).2 !! q = files w !! q).
  { intros q Hq. rewrite spindle_unfold. apply open_plan_write_close_files with
      (out := output_path savedir p "_SPINDLE"); [|exact Hq].
    intros r o header data Ho. apply spindle_plan_out in Ho as (p0 & [= <-] & ->).
    reflexivity. }
  split; [exact Hstd|]. split; [exact Hspn|]. split.
  - apply Hstd. intros E. symmetry in E. revert E. apply output_path_fresh. discriminate.
  - apply Hspn. intros E. symmetry in E. revert E. apply output_path_fresh. discriminate.
Qed.

Lemma trim_stop_zero_rate (x : PathLike) (fs : Q) (trim_to : list Q) (n stop : Z) :
  fs == 0 -> trim_stop x fs trim_to n <> inr stop.
Proof.
  intros Hfs. unfold trim_stop. cbv zeta.
  assert (H3600 : Qeq_bool (3600 * fs) 0 = true).
  { apply Qeq_bool_iff. rewrite Hfs. reflexivity. }
  assert (Hfs' : Qeq_bool fs 0 = true) by (apply Qeq_bool_iff; exact Hfs).
  destruct (_ <? 0); [rewrite H3600; discriminate|].
  destruct (_ !! _); [|discriminate].
  unfold round_stop. rewrite Hfs'. discriminate.
Qed.

(** With a sample rate or a downsample factor of zero [standard] always
    raises, and writes nothing. *)
Theorem standard_rejects_zero (path savedir : PathLike) (fs : Q) (m : Z)
    (trim_to : list Q) (chunksize : Q) (axis : Z) (verbose : bool) (w : World) :
  fs == 0 \/ m = 0 ->
  (standard path savedir fs m trim_to chunksize axis verbose w).1 <> inr tt /\
  files (standard path savedir fs m trim_to chunksize axis verbose w).2 = files w.
Proof.
  intros Hzero. rewrite standard_unfold. apply open_plan_write_close_never.
  intros r [[out header] data] H. unfold standard_plan in H.
  apply bindR_inr in H as (n & _ & H).
  apply bindR_inr in H as (stop & Hstop & H).
  do 4 (apply bindR_inr in H as (? & _ & H)).
  apply bindR_inr in H as (nrec & Hnrec & _).
  destruct Hzero as [Hfs| ->].
  - revert Hstop. apply trim_stop_zero_rate. exact Hfs.
  - discriminate.
Qed.

End StandardOutput.

Section Rerun.
Context {ext : Externals}.

(** Running the same plan again on what a finished run left: the same
    file is written again and the world is as the first run left it. *)
Lemma open_plan_write_close_again (fp : Path)
    (plan : Reader -> result (Path * Header * ndarray))
    (channels : Reader -> list Z) (w w' : World) :
  (forall r out header data, plan r = inr (out, header, data) -> out <> fp) ->
  open_plan_write_close fp plan channels w = (inr tt, w') ->
  open_plan_write_close fp plan channels w' = (inr tt, w').
Proof.
  intros Hfresh H.
  apply open_plan_write_close_inr in H
    as (h & d & ch & out & header & data & Hsrc & Hplan & Hacc & Hnd & Hpar & ->).
  assert (Hne : out <> fp) by (eapply Hfresh; exact Hplan).
  erewrite open_plan_write_close_run; [|cbn [files set_files]; rewrite lookup_insert_ne by exact Hne; exact Hsrc|exact Hplan|exact Hnd|exact Hpar].
  rewrite Hacc. f_equal. unfold set_files. cbn [dirs files readers jobs pools].
  rewrite insert_insert_eq. reflexivity.
Qed.

(** A preprocessor can be run again: on the world a finished run left, the
    same call finishes again and changes nothing. *)
Theorem rerun_changes_nothing (path savedir : PathLike) (fs : Q) (m : Z)
    (trim_to : list Q) (chunksize : Q) (axis : Z) (channels : list Z)
    (verbose : bool) (w w' : World) :
  (standard path savedir fs m trim_to chunksize axis verbose w = (inr tt, w') ->
   standard path savedir fs m trim_to chunksize axis verbose w' = (inr tt, w')) /\
  (spindle path savedir channels verbose w = (inr tt, w') ->
   spindle path savedir channels verbose w' = (inr tt, w')).
Proof.
  split.
  - rewrite !standard_unfold. apply open_plan_write_close_again.
    intros r out header data Ho. apply standard_plan_out in Ho as (p & -> & ->).
    apply output_path_fresh. discriminate.
  - rewrite !spindle_unfold. apply open_plan_write_close_again.
    intros r out header data Ho. apply spindle_plan_out in Ho as (p & -> & ->).
    apply output_path_fresh. discriminate.
Qed.

End Rerun.

(** * More on the batch *)

Lemma mkdir_no_parent (t : Path) (w : World) :
  t ∉ dirs w -> files w !! t = None -> parent t ∉ dirs w ->
  mkdir t w = (inl (if decide (is_Some (files w !! parent t))
                    then NotADirectoryError t else FileNotFoundError t), w).
Proof.
  intros Hd Hf Hp. unfold mkdir.
  destruct (decide (t ∈ dirs w ∨ is_Some (files w !! t))) as [[H|H]|_].
  - contradiction.
  - rewrite Hf in H. destruct H as [x H]. discriminate.
  - destruct (decide (parent t ∈ dirs w)); [contradiction|].
    destruct (decide _); reflexivity.
Qed.

Lemma mkdir_taken (t : Path) (w : World) :
  t ∈ dirs w \/ is_Some (files w !! t) -> mkdir t w = (inl (FileExistsError t), w).
Proof.
  intros H. unfold mkdir.
  destruct (decide (t ∈ dirs w ∨ is_Some (files w !! t))); [reflexivity|contradiction].
Qed.

Section BatchExtras.
Context {ext : Externals}.

(** The target of a batch, given or derived, must be new and its parent
    must exist: [target.mkdir()] comes first and is not asked to accept an
    existing directory or to make parents.  Otherwise the batch raises and
    nothing has happened. *)
Theorem batch_needs_fresh_target (pp : Preprocessor) (dirpath : PathLike)
    (target : option PathLike) (ncores : option Z) (verbose : bool)
    (kwargs : Kwargs) (w : World) :
  (resolve_target pp dirpath target ∈ dirs w \/
   is_Some (files w !! resolve_target pp dirpath target) ->
   batch pp dirpath target ncores verbose kwargs w
     = (inl (FileExistsError (resolve_target pp dirpath target)), w)) /\
  (resolve_target pp dirpath target ∉ dirs w ->
   files w !! resolve_target pp dirpath target = None ->
   parent (resolve_target pp dirpath target) ∉ dirs w ->
   batch pp dirpath target ncores verbose kwargs w
     = (inl (if decide (is_Some (files w !! parent (resolve_target pp dirpath target)))
             then NotADirectoryError (resolve_target pp dirpath target)
             else FileNotFoundError (resolve_target pp dirpath target)), w)).
Proof.
  split.
  - intros H. rewrite batch_after_mkdir, (mkdir_taken _ _ H). reflexivity.
  - intros Hd Hf Hp. rewrite batch_after_mkdir, (mkdir_no_parent _ _ Hd Hf Hp).
    reflexivity.
Qed.

(** A batch that got as far as making its target cannot be run again:
    whether it finished or failed on the way, the same call now raises
    [FileExistsError] and does nothing. *)
Theorem batch_cannot_be_repeated (pp : Preprocessor) (dirpath : PathLike)
    (target : option PathLike) (ncores : option Z) (verbose : bool)
    (kwargs : Kwargs) (w : World) :
  Wellbehaved pp ->
  resolve_target pp dirpath target ∉ dirs w ->
  files w !! resolve_target pp dirpath target = None ->
  parent (resolve_target pp dirpath target) ∈ dirs w ->
  batch pp dirpath target ncores verbose kwargs
    (batch pp dirpath target ncores verbose kwargs w).2
  = (inl (FileExistsError (resolve_target pp dirpath target)),
     (batch pp dirpath target ncores verbose kwargs w).2).
Proof.
  intros Hwb Hd Hf Hp. apply batch_target_exists.
  rewrite (batch_target_new pp dirpath target ncores verbose kwargs w Hd Hf Hp).
  destruct (pool_run pp (job_kwargs (resolve_target pp dirpath target) kwargs)
              (resolve_target pp dirpath target)
              (set_cores ncores
                 (Z.of_nat (length (edf_paths (mkPath dirpath)
                    (set_dirs w ({[resolve_target pp dirpath target]} ∪ dirs w))))))
              (edf_paths (mkPath dirpath)
                 (set_dirs w ({[resolve_target pp dirpath target]} ∪ dirs w)))
              (set_dirs w ({[resolve_target pp dirpath target]} ∪ dirs w))
              Hwb (job_kwargs_savedir _ _)) as (Hdirs & _ & _ & _).
  rewrite Hdirs. cbn [dirs set_dirs].
  apply elem_of_union. left. apply elem_of_singleton. reflexivity.
Qed.



End BatchExtras.

Section BatchOutputs.
Context {ext : Externals}.

Lemma call_standard_inr (path : PathLike) (kw : Kwargs) (t : Path) (w w' : World) :
  kw !! "savedir" = Some (VPath t) ->
  call_standard path kw w = (inr tt, w') ->
  exists fs m trim_to chunksize axis verbose,
    standard path (PPath t) fs m trim_to chunksize axis verbose w = (inr tt, w').
Proof.
  intros Hkw. unfold call_standard.
  rewrite bind_lift. destruct (check_keywords _ _); [discriminate|].
  rewrite (required_savedir kw t Hkw), bind_lift.
  rewrite bind_lift. destruct (required kw "fs" _) as [|fs]; [discriminate|].
  rewrite bind_lift. destruct (required kw "downsample" _) as [|m]; [discriminate|].
  rewrite bind_lift. destruct (optional kw "trim_to" _ _) as [|trim_to]; [discriminate|].
  rewrite bind_lift. destruct (optional kw "chunksize" _ _) as [|cs]; [discriminate|].
  rewrite bind_lift. destruct (optional kw "axis" _ _) as [|axis]; [discriminate|].
  rewrite bind_lift. destruct (optional kw "verbose" _ _) as [|v]; [discriminate|].
  eauto 7.
Qed.

Lemma call_spindle_inr (path : PathLike) (kw : Kwargs) (t : Path) (w w' : World) :
  kw !! "savedir" = Some (VPath t) ->
  call_spindle path kw w = (inr tt, w') ->
  exists channels verbose,
    spindle path (PPath t) channels verbose w = (inr tt, w').
Proof.
  intros Hkw. unfold call_spindle.
  rewrite bind_lift. destruct (check_keywords _ _); [discriminate|].
  rewrite (required_savedir kw t Hkw), bind_lift.
  rewrite bind_lift. destruct (required kw "channels" _) as [|channels]; [discriminate|].
  rewrite bind_lift. destruct (optional kw "verbose" _ _) as [|v]; [discriminate|].
  eauto.
Qed.

(** A job that returns has put an EDF file in place of whatever was at its
    output path, and changed no other file. *)
Lemma standard_pp_job (p t : Path) (kw : Kwargs) (w w' : World) :
  kw !! "savedir" = Some (VPath t) ->
  pp_call standard_pp (PPath p) kw w = (inr tt, w') ->
  exists h d ch,
    files w' = <[output_path (PPath t) p "_PREPROCESSED" := Edf h d ch]> (files w).
Proof.
  intros Hkw H. cbn [pp_call standard_pp] in H.
  apply (call_standard_inr _ _ _ _ _ Hkw) in H as (fs & m & T & cs & ax & v & H).
  apply standard_inr in H as (p0 & [= <-] & []). eauto.
Qed.

Lemma spindle_pp_job (p t : Path) (kw : Kwargs) (w w' : World) :
  kw !! "savedir" = Some (VPath t) ->
  pp_call spindle_pp (PPath p) kw w = (inr tt, w') ->
  exists h d ch,
    files w' = <[output_path (PPath t) p "_SPINDLE" := Edf h d ch]> (files w).
Proof.
  intros Hkw H. cbn [pp_call spindle_pp] in H.
  apply (call_spindle_inr _ _ _ _ _ Hkw) in H as (channels & v & H).
  rewrite spindle_unfold in H.
  apply open_plan_write_close_inr in H
    as (h & d & ch & out & header & data & _ & Hplan & _ & _ & _ & ->).
  apply spindle_plan_out in Hplan as (p0 & [= <-] & ->).
  cbn [files set_files]. eauto.
Qed.

(** The files of a pool that came to its end, for a preprocessor whose
    finished jobs each put one EDF file at [out p]. *)
Lemma pool_map_outputs (pp : Preprocessor) (kw : Kwargs) (out : Path -> Path)
    (paths : list Path) :
  (forall p w w', pp_call pp (PPath p) kw w = (inr tt, w') ->
     exists h d ch, files w' = <[out p := Edf h d ch]> (files w)) ->
  forall (w w' : World),
    pool_map (fun p => start_job p kw ;;; pp_call pp (PPath p) kw) paths w = (inr tt, w') ->
    (forall q h d ch, files w !! q = Some (Edf h d ch) ->
       exists h' d' ch', files w' !! q = Some (Edf h' d' ch')) /\
    (forall p, p ∈ paths -> exists h' d' ch', files w' !! out p = Some (Edf h' d' ch')).
Proof.
  intros Hjob. induction paths as [|p ps IH]; intros w w' H.
  - cbn in H. injection H as <-. split; [eauto|]. intros p Hp. inversion Hp.
  - rewrite pool_map_cons in H. cbv beta in H. rewrite start_job_then in H.
    destruct (pp_call pp (PPath p) kw _) as [[e|[]] w2] eqn:Hcall; [discriminate|].
    apply Hjob in Hcall as (h0 & d0 & ch0 & Hfiles). cbn [files set_jobs] in Hfiles.
    destruct (IH _ _ H) as (Hkeep & Hps).
    assert (Hstep : forall q h d ch, files w !! q = Some (Edf h d ch) ->
              exists h' d' ch', files w2 !! q = Some (Edf h' d' ch')).
    { intros q h d ch Hq. rewrite Hfiles. destruct (decide (q = out p)) as [->|Hne].
      - rewrite lookup_insert_eq. eauto.
      - rewrite lookup_insert_ne by congruence. eauto. }
    split.
    + intros q h d ch Hq. destruct (Hstep q h d ch Hq) as (h' & d' & ch' & Hq').
      eapply Hkeep. exact Hq'.
    + intros p' Hp'. apply elem_of_cons in Hp' as [->|Hp'].
      * apply (Hkeep (out p) h0 d0 ch0). rewrite Hfiles. apply lookup_insert_eq.
      * apply Hps. exact Hp'.
Qed.

Lemma finished_batch_outputs (dirpath : PathLike)
    (target : option PathLike) (ncores : option Z) (verbose : bool)
    (kwargs : Kwargs) (w w' : World) (pp : Preprocessor) (tag : string) :
  (pp = standard_pp /\ tag = "_PREPROCESSED"%string) \/
  (pp = spindle_pp /\ tag = "_SPINDLE"%string) ->
  batch pp dirpath target ncores verbose kwargs w = (inr tt, w') ->
  (forall p : Path,
     p ∈ edf_paths (mkPath dirpath)
           (set_dirs w ({[resolve_target pp dirpath target]} ∪ dirs w)) ->
     exists h' d' ch',
       files w' !! joinpath (resolve_target pp dirpath target)
                     (path_stem p ++ tag ++ path_suffix p)%string
         = Some (Edf h' d' ch')) /\
  (forall q h d ch, files w !! q = Some (Edf h d ch) ->
     exists h' d' ch', files w' !! q = Some (Edf h' d' ch')).
Proof.
  intros Hpp H. rewrite batch_after_mkdir in H. unfold mkdir in H.
  destruct (decide (_ ∨ _)) as [|Hfree]; [discriminate|].
  destruct (decide (parent _ ∈ dirs w)); [|destruct (decide _); discriminate].
  rewrite Pool_then in H. destruct (_ <? 1); [discriminate|].
  apply (pool_map_outputs pp _
           (fun p => output_path (PPath (resolve_target pp dirpath target)) p tag)) in H.
  - destruct H as (Hkeep & Hout). split; [exact Hout|exact Hkeep].
  - intros p w0 w0' Hcall. destruct Hpp as [[-> ->]|[-> ->]].
    + eapply standard_pp_job; [apply job_kwargs_savedir|exact Hcall].
    + eapply spindle_pp_job; [apply job_kwargs_savedir|exact Hcall].
Qed.

(** After a batch of [standard] that returned normally, every entry that
    was listed has its output in the target directory, an EDF file named
    after it with [_PREPROCESSED] before the extension, and every EDF file
    there was before the batch is still an EDF file; the same holds of a
    batch of [spindle], with [_SPINDLE]. *)
Theorem finished_batch_wrote_every_output (dirpath : PathLike)
    (target : option PathLike) (ncores : option Z) (verbose : bool)
    (kwargs : Kwargs) (w w' : World) :
  (batch standard_pp dirpath target ncores verbose kwargs w = (inr tt, w') ->
   (forall p : Path,
      p ∈ edf_paths (mkPath dirpath)
            (set_dirs w ({[resolve_target standard_pp dirpath target]} ∪ dirs w)) ->
      exists h' d' ch',
        files w' !! joinpath (resolve_target standard_pp dirpath target)
                      (path_stem p ++ "_PREPROCESSED" ++ path_suffix p)%string
          = Some (Edf h' d' ch')) /\
   (forall q h d ch, files w !! q = Some (Edf h d ch) ->
      exists h' d' ch', files w' !! q = Some (Edf h' d' ch'))) /\
  (batch spindle_pp dirpath target ncores verbose kwargs w = (inr tt, w') ->
   (forall p : Path,
      p ∈ edf_paths (mkPath dirpath)
            (set_dirs w ({[resolve_target spindle_pp dirpath target]} ∪ dirs w)) ->
      exists h' d' ch',
        files w' !! joinpath (resolve_target spindle_pp dirpath target)
                      (path_stem p ++ "_SPINDLE" ++ path_suffix p)%string
          = Some (Edf h' d' ch')) /\
   (forall q h d ch, files w !! q = Some (Edf h d ch) ->
      exists h' d' ch', files w' !! q = Some (Edf h' d' ch'))).
Proof.
  split; intros H.
  - apply (finished_batch_outputs dirpath target ncores verbose kwargs w w'
             standard_pp "_PREPROCESSED"); [left; split; reflexivity|exact H].
  - apply (finished_batch_outputs dirpath target ncores verbose kwargs w w'
             spindle_pp "_SPINDLE"); [right; split; reflexivity|exact H].
Qed.

End BatchOutputs.

(** * The extension of the output *)

Lemma append_assoc (a b c : string) : ((a ++ b) ++ c)%string = (a ++ b ++ c)%string.
Proof.
  induction a as [|x a IH]; [reflexivity|]. rewrite !append_cons, IH. reflexivity.
Qed.

Lemma rfind_append (c : ascii) (a b : string) :
  rfind c (a ++ b)%string =
    match rfind c b with
    | Some j => Some (String.length a + j)%nat
    | None => rfind c a
    end.
Proof.
  induction a as [|x a IH].
  - change ("" ++ b)%string with b. destruct (rfind c b); reflexivity.
  - rewrite append_cons. cbn [rfind String.length]. rewrite IH.
    destruct (rfind c b); reflexivity.
Qed.

Lemma rfind_lt (c : ascii) (s : string) (i : nat) :
  rfind c s = Some i -> (i < String.length s)%nat.
Proof.
  revert i. induction s as [|a s IH]; intros i; cbn [rfind String.length].
  - discriminate.
  - destruct (rfind c s) as [j|].
    + intros [= <-]. specialize (IH j eq_refl). lia.
    + destruct (Ascii.eqb a c); [|discriminate]. intros [= <-]. lia.
Qed.

Lemma length_substring_0 (s : string) (i : nat) :
  (i <= String.length s)%nat -> String.length (String.substring 0 i s) = i.
Proof.
  revert i. induction s as [|a s IH]; intros [|i] Hi; try reflexivity.
  - simpl in Hi. lia.
  - simpl. f_equal. apply IH. simpl in Hi. lia.
Qed.

Lemma substring_append_l (a b : string) :
  String.substring 0 (String.length a) (a ++ b)%string = a.
Proof.
  induction a as [|x a IH].
  - destruct b; reflexivity.
  - rewrite append_cons. simpl. f_equal. exact IH.
Qed.

Lemma substring_append_r (a b : string) :
  String.substring (String.length a) (String.length b) (a ++ b)%string = b.
Proof.
  induction a as [|x a IH].
  - apply substring_all.
  - rewrite append_cons. simpl. exact IH.
Qed.

(** What [stem] and [suffix] are for a name with an extension: the name
    splits at its last dot, which is neither its first nor its last
    character. *)
Lemma suffix_index_split (nm : string) (i : nat) :
  suffix_index nm = Some i ->
  exists stem suf : string,
    nm = (stem ++ suf)%string /\ String.length stem = i /\
    String.substring 0 i nm = stem /\
    String.substring i (String.length nm - i) nm = suf /\
    rfind "." suf = Some 0%nat /\ (0 < i)%nat /\ (2 <= String.length suf)%nat.
Proof.
  unfold suffix_index. destruct (rfind "." nm) as [j|] eqn:Hr; [|discriminate].
  destruct (_ && _)%bool eqn:E; [|discriminate]. intros [= ->].
  apply andb_true_iff in E as [E1 E2]. apply Nat.ltb_lt in E1, E2.
  set (stem := String.substring 0 i nm).
  set (suf := String.substring i (String.length nm - i) nm).
  assert (Hsplit : (stem ++ suf)%string = nm) by (apply substring_split; lia).
  assert (Hlen : String.length stem = i) by (apply length_substring_0; lia).
  assert (Hlsuf : String.length suf = (String.length nm - i)%nat).
  { pose proof (f_equal String.length Hsplit) as Hl.
    rewrite length_append, Hlen in Hl. lia. }
  exists stem, suf. split; [symmetry; exact Hsplit|]. split; [exact Hlen|].
  split; [reflexivity|]. split; [reflexivity|]. split; [|lia].
  rewrite <- Hsplit, rfind_append in Hr. destruct (rfind "." suf) as [k|].
  - injection Hr as Hr. f_equal. lia.
  - apply rfind_lt in Hr. lia.
Qed.

(** The output keeps the extension of the input: for a name with an
    extension and a tag without a dot, the suffix of the output is the
    suffix of the input and its stem is the input's followed by the tag. *)
Theorem output_keeps_extension (savedir : PathLike) (p : Path) (tag : string) :
  rfind "." tag = None ->
  path_suffix p <> EmptyString ->
  path_suffix (output_path savedir p tag) = path_suffix p /\
  path_stem (output_path savedir p tag) = (path_stem p ++ tag)%string.
Proof.
  intros Htag Hsuf. unfold path_suffix, path_stem in *. cbv zeta in *.
  unfold output_path. rewrite name_joinpath.
  unfold path_suffix, path_stem. cbv zeta.
  destruct (suffix_index (name p)) as [i|] eqn:Hi; [|congruence].
  destruct (suffix_index_split _ _ Hi)
    as (stem & suf & Hnm & Hlen & -> & -> & Hdot & Hpos & Hlsuf).
  assert (Hout : suffix_index (stem ++ tag ++ suf)%string
                 = Some (String.length (stem ++ tag)%string)).
  { unfold suffix_index. rewrite !rfind_append, Hdot.
    rewrite !length_append, Nat.add_0_r.
    replace ((0 <? _)%nat && (_ <? _)%nat)%bool with true; [reflexivity|].
    symmetry. apply andb_true_iff. split; apply Nat.ltb_lt; lia. }
  rewrite Hout. rewrite <- append_assoc. split.
  - replace (String.length ((stem ++ tag) ++ suf)%string - String.length (stem ++ tag)%string)%nat
      with (String.length suf) by (rewrite (length_append (stem ++ tag)%string suf); lia).
    apply substring_append_r.
  - apply substring_append_l.
Qed.

(** * The script run as a program *)

Section MainRuns.
Context {ext : Externals}.


End MainRuns.

(** * More runs of the small machine *)



Lemma standard_writes_trimmed_downsampled_witness :
  run_standard 20 long_recording = (inr tt, (run_standard 20 long_recording).2) /\
  exists (h' : Header) (shp : list Z),
    files (run_standard 20 long_recording).2 =
      <[["out"; "rec01_PREPROCESSED.edf"]%string :=
          Edf h' {| content := Downsampled rec01 0 (48 * 3600 * 5000) 3000000 (-1) 20 5000;
                    shape := shp |} [0; 1]]> (files long_recording).
Proof.
  assert (Hrun : run_standard 20 long_recording
                 = (inr tt, (run_standard 20 long_recording).2))
    by (vm_compute; reflexivity).
  split; [exact Hrun|].
  destruct (@standard_writes_trimmed_downsampled demo_ext (PPath rec01) out_dir 5000 20
              [48; 72]%Q 3000000 (-1) true long_recording _ Hrun)
    as (p & h & d & ch & n & stop & shp & h' & Hp & Hsrc & Hn & Hstop & _ & Hfiles & _).
  injection Hp as <-.
  assert (Hsrc' : files long_recording !! rec01 =
            Some (Edf (demo_header 5000 1)
                    {| content := Recorded rec01; shape := [2; 66 * 3600 * 5000] |} [0; 1]))
    by (vm_compute; reflexivity).
  rewrite Hsrc' in Hsrc. injection Hsrc as <- <- <-.
  assert (Hn' : py_get [2; 66 * 3600 * 5000] (-1) = inr (66 * 3600 * 5000))
    by (vm_compute; reflexivity).
  cbn [shape] in Hn. rewrite Hn' in Hn. injection Hn as <-.
  assert (Hstop' : trim_stop (PPath rec01) 5000 [48; 72]%Q (66 * 3600 * 5000)
                   = inr (48 * 3600 * 5000)) by (vm_compute; reflexivity).
  rewrite Hstop' in Hstop. injection Hstop as <-.
  exists h', shp. exact Hfiles.
Defined.

Lemma standard_header_edits_witness :
  run_standard 20 long_recording = (inr tt, (run_standard 20 long_recording).2) /\
  exists (h h' : Header) (d d' : ndarray) (ch : list Z),
    files long_recording !! rec01 = Some (Edf h d ch) /\
    files (run_standard 20 long_recording).2
      !! output_path out_dir rec01 "_PREPROCESSED" = Some (Edf h' d' ch) /\
    h' !! "reserved_0" = Some (VStr "") /\
    h' !! "names" = h !! "names".
Proof.
  assert (Hrun : run_standard 20 long_recording
                 = (inr tt, (run_standard 20 long_recording).2))
    by (vm_compute; reflexivity).
  split; [exact Hrun|].
  destruct (@standard_header_edits demo_ext (PPath rec01) out_dir 5000 20
              [48; 72]%Q 3000000 (-1) true long_recording _ Hrun)
    as (p & h & d & ch & h' & d' & dmin & dmax & mins & maxs & Hp & Hsrc & Hout & Hres
        & _ & _ & _ & _ & _ & _ & Hframe).
  injection Hp as <-. exists h, h', d, d', ch.
  split; [exact Hsrc|]. split; [exact Hout|]. split; [exact Hres|].
  apply Hframe. intros Hin. apply (bool_decide_pack _) in Hin. vm_compute in Hin. exact Hin.
Defined.

Lemma standard_rejects_zero_witness :
  ((5000 == 0)%Q \/ 0 = 0) /\
  (run_standard 0 long_recording).1 <> inr tt /\
  files (run_standard 0 long_recording).2 = files long_recording.
Proof.
  assert (Hz : (5000 == 0)%Q \/ 0 = 0) by (right; reflexivity).
  split; [exact Hz|].
  exact (@standard_rejects_zero demo_ext (PPath rec01) out_dir 5000 0 [48; 72]%Q
           3000000 (-1) true long_recording Hz).
Defined.

Lemma rerun_changes_nothing_witness :
  run_standard 20 (run_standard 20 long_recording).2
    = (inr tt, (run_standard 20 long_recording).2) /\
  @spindle demo_ext (PPath rec01) out_dir [1; 0] true (run_spindle [1; 0]).2
    = (inr tt, (run_spindle [1; 0]).2).
Proof.
  destruct (@rerun_changes_nothing demo_ext (PPath rec01) out_dir 5000 20 [48; 72]%Q
              3000000 (-1) [1; 0] true long_recording (run_standard 20 long_recording).2)
    as (Hstd & _).
  destruct (@rerun_changes_nothing demo_ext (PPath rec01) out_dir 5000 20 [48; 72]%Q
              3000000 (-1) [1; 0] true (demo_world 5000 5) (run_spindle [1; 0]).2)
    as (_ & Hspn).
  split.
  - apply Hstd. vm_compute. reflexivity.
  - apply Hspn. vm_compute. reflexivity.
Defined.

Lemma output_keeps_extension_witness :
  rfind "." "_PREPROCESSED" = None /\
  path_suffix rec01 <> EmptyString /\
  path_suffix (output_path out_dir rec01 "_PREPROCESSED") = path_suffix rec01 /\
  path_stem (output_path out_dir rec01 "_PREPROCESSED")
    = (path_stem rec01 ++ "_PREPROCESSED")%string.
Proof.
  assert (Htag : rfind "." "_PREPROCESSED" = None) by reflexivity.
  assert (Hsuf : path_suffix rec01 <> EmptyString) by (vm_compute; discriminate).
  split; [exact Htag|]. split; [exact Hsuf|].
  exact (output_keeps_extension out_dir rec01 "_PREPROCESSED" Htag Hsuf).
Defined.

(** The names on the small machine. *)
Example output_names :
  output_path out_dir rec01 "_PREPROCESSED" = ["out"; "rec01_PREPROCESSED.edf"]%string /\
  output_path (PStr "data") ["data"; "archive.tar.edf"]%string "_SPINDLE"
    = ["data"; "archive.tar_SPINDLE.edf"]%string /\
  output_path out_dir ["data"; "recording"]%string "_SPINDLE"
    = ["out"; "recording_SPINDLE"]%string /\
  output_path out_dir ["data"; ".edf"]%string "_SPINDLE" = ["out"; ".edf_SPINDLE"]%string.
Proof. repeat split; vm_compute; reflexivity. Qed.

Lemma batch_needs_fresh_target_witness :
  run_batch data_dir (Some out_dir) None standard_kwargs two_recordings
    = (inl (FileExistsError ["out"]%string), two_recordings) /\
  run_batch data_dir (Some (PStr "results/standard")) None standard_kwargs two_recordings
    = (inl (FileNotFoundError ["results"; "standard"]%string), two_recordings).
Proof.
  destruct (@batch_needs_fresh_target demo_ext (@standard_pp demo_ext) data_dir
              (Some out_dir) None true standard_kwargs two_recordings) as (Htaken & _).
  destruct (@batch_needs_fresh_target demo_ext (@standard_pp demo_ext) data_dir
              (Some (PStr "results/standard")) None true standard_kwargs two_recordings)
    as (_ & Hparent).
  split.
  - apply Htaken. left. by_evaluation.
  - apply Hparent; [by_evaluation|vm_compute; reflexivity|by_evaluation].
Defined.

Lemma batch_cannot_be_repeated_witness :
  Wellbehaved (@standard_pp demo_ext) /\
  (resolve_target (@standard_pp demo_ext) data_dir None ∉ dirs two_recordings) /\
  files two_recordings !! resolve_target (@standard_pp demo_ext) data_dir None = None /\
  parent (resolve_target (@standard_pp demo_ext) data_dir None) ∈ dirs two_recordings /\
  @batch demo_ext (@standard_pp demo_ext) data_dir None None true standard_kwargs
    (@batch demo_ext (@standard_pp demo_ext) data_dir None None true standard_kwargs
       two_recordings).2
  = (inl (FileExistsError (resolve_target (@standard_pp demo_ext) data_dir None)),
     (@batch demo_ext (@standard_pp demo_ext) data_dir None None true standard_kwargs
        two_recordings).2).
Proof.
  assert (Hd : resolve_target (@standard_pp demo_ext) data_dir None ∉ dirs two_recordings)
    by by_evaluation.
  assert (Hf : files two_recordings
                 !! resolve_target (@standard_pp demo_ext) data_dir None = None)
    by (vm_compute; reflexivity).
  assert (Hp : parent (resolve_target (@standard_pp demo_ext) data_dir None)
                 ∈ dirs two_recordings) by by_evaluation.
  split; [exact standard_pp_Wellbehaved|]. split; [exact Hd|]. split; [exact Hf|].
  split; [exact Hp|].
  exact (@batch_cannot_be_repeated demo_ext (@standard_pp demo_ext) data_dir None None true
           standard_kwargs two_recordings standard_pp_Wellbehaved Hd Hf Hp).
Defined.


Lemma finished_batch_wrote_every_output_witness :
  run_batch data_dir None None standard_kwargs two_recordings
    = (inr tt, already_preprocessed) /\
  (exists h' d' ch',
     files already_preprocessed !! ["data"; "standard"; "rec01_PREPROCESSED.edf"]%string
       = Some (Edf h' d' ch')) /\
  (exists h' d' ch',
     files already_preprocessed !! ["data"; "standard"; "rec02_PREPROCESSED.edf"]%string
       = Some (Edf h' d' ch')).
Proof.
  assert (Hrun : run_batch data_dir None None standard_kwargs two_recordings
                 = (inr tt, already_preprocessed)) by (vm_compute; reflexivity).
  split; [exact Hrun|].
  destruct (@finished_batch_wrote_every_output demo_ext data_dir None None true
              standard_kwargs two_recordings already_preprocessed) as (Hstd & _).
  destruct (Hstd Hrun) as (Hout & _).
  split.
  - apply (Hout rec01). by_evaluation.
  - apply (Hout rec02). by_evaluation.
Defined.
